(** * Topic & Skill service: the request handlers of [app.py]

    The handlers are embedded as functions from the stored state to a
    response and a new stored state.  Request payloads are JSON values
    probed with Python's [dict.get], [or] and [str.strip]; the two tables
    are finite maps keyed by primary key. *)

From Stdlib Require Import Ascii.
From stdpp Require Import gmap strings list fin_maps sorting.

Set Warnings "-register-all".
Local Open Scope string_scope.

(** ** Python values that reach the handlers *)

(** What [request.get_json] can hand to a handler.  Numbers are kept to the
    integers: the handlers only observe whether a number is zero. *)
Inductive json : Type :=
  | JNull
  | JBool (b : bool)
  | JNum (n : Z)
  | JStr (s : string)
  | JArr (l : list json)
  | JObj (m : gmap string json).

(** Python truth value: [None], [False], [0], [""], [[]] and [{}] are falsy. *)
Definition truthy (v : json) : bool :=
  match v with
  | JNull => false
  | JBool b => b
  | JNum n => negb (n =? 0)%Z
  | JStr s => negb (bool_decide (s = ""))
  | JArr l => match l with [] => false | _ => true end
  | JObj m => match map_to_list m with [] => false | _ => true end
  end.

(** [a or b] *)
Definition py_or (a b : json) : json := if truthy a then a else b.

(** Exceptions a handler can let escape. *)
Inductive exn : Type :=
  | AttributeError   (* [.get] or [.strip] on a value that has no such method *)
  | StorageError.    (* the store rejects a statement *)

Inductive res (A : Type) : Type :=
  | Ok (a : A)
  | Raise (e : exn).
Arguments Ok {A} a.
Arguments Raise {A} e.

#[global] Instance res_ret : MRet res := λ A a, Ok a.
#[global] Instance res_bind : MBind res := λ A B f m,
  match m with
  | Ok a => f a
  | Raise e => Raise e
  end.

(** A Python [str] is held as the bytes of its UTF-8 encoding (a lone
    surrogate, which a [str] may hold, in its three-byte form): equality,
    emptiness and dict keys are the same on both, and [strip] below removes
    whole encoded characters. *)

(** The UTF-8 encoding of the code point [cp]. *)
Definition utf8 (cp : N) : string :=
  let byte (n : N) := String (ascii_of_N n) in
  let tail (n : N) := byte (128 + n mod 64)%N in
  if (cp <? 128)%N then byte cp ""
  else if (cp <? 2048)%N then byte (192 + cp / 64)%N (tail cp "")
  else if (cp <? 65536)%N then
    byte (224 + cp / 4096)%N (tail (cp / 64)%N (tail cp ""))
  else
    byte (240 + cp / 262144)%N (tail (cp / 4096)%N (tail (cp / 64)%N (tail cp ""))).

(** The characters [str.strip()] removes, those [str.isspace] holds of:
    U+0009..U+000D, U+001C..U+0020, U+0085, U+00A0, U+1680, U+2000..U+200A,
    U+2028, U+2029, U+202F, U+205F and U+3000. *)
Definition whitespace : list string :=
  utf8 <$> [9; 10; 11; 12; 13; 28; 29; 30; 31; 32; 133; 160; 5760;
            8192; 8193; 8194; 8195; 8196; 8197; 8198; 8199; 8200; 8201; 8202;
            8232; 8233; 8239; 8287; 12288]%N.

(** [Some r] when [s] is [w] followed by [r]. *)
Fixpoint after_prefix (w s : string) : option string :=
  match w, s with
  | EmptyString, _ => Some s
  | String a w', String b s' => if Ascii.eqb a b then after_prefix w' s' else None
  | String _ _, EmptyString => None
  end.

(** What follows the leading character of [s] when that is one of [ws]. *)
Fixpoint after_any (ws : list string) (s : string) : option string :=
  match ws with
  | [] => None
  | w :: ws' =>
    match after_prefix w s with
    | Some r => Some r
    | None => after_any ws' s
    end
  end.

(** Drop leading characters out of [ws], at most [n] of them. *)
Fixpoint lstrip_go (ws : list string) (n : nat) (s : string) : string :=
  match n with
  | O => s
  | S n' =>
    match after_any ws s with
    | Some r => lstrip_go ws n' r
    | None => s
    end
  end.

(** Drop every leading character out of [ws]: a string has no more
    characters than bytes. *)
Definition lstrip_of (ws : list string) (s : string) : string :=
  lstrip_go ws (String.length s) s.

(** [s.lstrip()] *)
Definition lstrip (s : string) : string := lstrip_of whitespace s.

(** [s.rstrip()]: the same from the end, on the reversed bytes. *)
Definition rstrip (s : string) : string :=
  String.rev (lstrip_of (String.rev <$> whitespace) (String.rev s)).

(** [s.strip()] *)
Definition strip (s : string) : string := rstrip (lstrip s).

(** [v.strip()] for a value of any type: only [str] has the method. *)
Definition str_strip (v : json) : res string :=
  match v with
  | JStr s => Ok (strip s)
  | _ => Raise AttributeError
  end.

(** [request.get_json(silent=True) or {}]: [body] is what [get_json] returned,
    [None] when the body is missing or is not valid JSON. *)
Definition get_payload (body : option json) : json :=
  match body with
  | Some v => py_or v (JObj ∅)
  | None => JObj ∅
  end.

(** [payload.get(k, d)]; [payload.get(k)] is [dict_get payload k JNull]. *)
Definition dict_get (payload : json) (k : string) (d : json) : res json :=
  match payload with
  | JObj m => Ok (default d (m !! k))
  | _ => Raise AttributeError
  end.

(** ** The stored state *)

(** Modelled from the spec: the table [topics(id, name, description,
    parent_topic_id)] of models.py, which is not part of the sources.  Ids
    are the strings the routes receive as [<id>]. *)
Module Topic.
Record t : Type := mk {
  name : string;
  description : option string;
  parent_topic_id : option string
}.
End Topic.

(** Modelled from the spec: the table [skills(id, name, topic_id, difficulty)]
    of models.py, which is not part of the sources. *)
Module Skill.
Record t : Type := mk {
  name : string;
  topic_id : string;
  difficulty : string
}.
End Skill.

Record db : Type := mkdb {
  topics : gmap string Topic.t;
  skills : gmap string Skill.t
}.

(** Modelled from the spec: the text columns of models.py hold a string or
    NULL, and the references are checked by the handlers only, not by the
    store.  What the driver makes of a bound value of any other type is
    not in the sources: here such a run ends in [StorageError] and writes
    nothing. *)
Definition bind_text (v : json) : res (option string) :=
  match v with
  | JNull => Ok None
  | JStr s => Ok (Some s)
  | _ => Raise StorageError
  end.

(** A column that is not nullable. *)
Definition bind_text_required (v : json) : res string :=
  o ← bind_text v;
  match o with
  | Some s => Ok s
  | None => Raise StorageError
  end.

(** A stored column read back as a Python value. *)
Definition of_text (o : option string) : json :=
  match o with
  | Some s => JStr s
  | None => JNull
  end.

(** [Model.query.get(key)] for a key that is a string or [None]: the row
    with that primary key, [None] when there is none (and for the key
    [None]).  A key of any other type is bound like a column value. *)
Definition query_get {A : Type} (table : gmap string A) (key : json) : res (option A) :=
  o ← bind_text key;
  match o with
  | Some k => Ok (table !! k)
  | None => Ok None
  end.

(** [db.session.add(row); db.session.commit()] with the primary key the store
    generates for the row. *)
Definition session_add {A : Type} (new_id : string) (row : A) (table : gmap string A)
  : res (gmap string A) :=
  match table !! new_id with
  | Some _ => Raise StorageError
  | None => Ok (<[new_id := row]> table)
  end.

(** [exists().where(Skill.topic_id == id)] *)
Definition has_skills (id : string) (st : db) : bool :=
  bool_decide (map_Exists (λ _ s, Skill.topic_id s = id) (skills st)).

(** [exists().where(Topic.parent_topic_id == id)] *)
Definition has_topics (id : string) (st : db) : bool :=
  bool_decide (map_Exists (λ _ t, Topic.parent_topic_id t = Some id) (topics st)).

(** ** Responses *)

Inductive content : Type :=
  | ErrorJson (msg : string)                       (* [jsonify({"error": msg})] *)
  | TopicJson (id : string) (row : Topic.t)        (* [topic.to_dict()] *)
  | SkillJson (id : string) (row : Skill.t)        (* [skill.to_dict()] *)
  | TopicList (rows : list (string * Topic.t))
  | SkillList (rows : list (string * Skill.t))
  | NoContent                                      (* the empty body *)
  | Unhandled (e : exn).                           (* an exception left the handler *)

Record response : Type := mkresp {
  status : nat;
  payload_of : content
}.

Definition error (code : nat) (msg : string) : response := mkresp code (ErrorJson msg).

(** ** Topic endpoints *)

Section Service.

(** The collation the store orders names by: [collate a b] when [a] sorts
    no later than [b]. *)
Context (collate : string → string → bool).

Definition topic_name_le (x y : string * Topic.t) : Prop :=
  collate (Topic.name x.2) (Topic.name y.2) = true.

Definition skill_name_le (x y : string * Skill.t) : Prop :=
  collate (Skill.name x.2) (Skill.name y.2) = true.

#[local] Instance topic_name_le_dec : RelDecision topic_name_le.
Proof. intros x y. unfold topic_name_le. apply _. Defined.

#[local] Instance skill_name_le_dec : RelDecision skill_name_le.
Proof. intros x y. unfold skill_name_le. apply _. Defined.

(** GET /topics: [Topic.query.order_by(Topic.name.asc()).all()] *)
Definition get_topics (st : db) : res (response * db) :=
  let rows := merge_sort topic_name_le (map_to_list (topics st)) in
  Ok (mkresp 200 (TopicList rows), st).

(** GET /topics/<id> *)
Definition get_topic_by_id (id : string) (st : db) : res (response * db) :=
  match topics st !! id with
  | None => Ok (error 404 "Topic not found", st)
  | Some topic => Ok (mkresp 200 (TopicJson id topic), st)
  end.

(** POST /topics *)
Definition create_topic (new_id : string) (body : option json) (st : db)
  : res (response * db) :=
  let payload := get_payload body in
  n ← dict_get payload "name" JNull;
  name ← str_strip (py_or n (JStr ""));
  description ← dict_get payload "description" JNull;
  parent_id ← dict_get payload "parentTopicID" JNull;
  if bool_decide (name = "") then
    Ok (error 422 "Field 'name' is required.", st)
  else
    parent ← (if truthy parent_id then query_get (topics st) parent_id
              else Ok None);
    if truthy parent_id && bool_decide (parent = None) then
      Ok (error 422 "parentTopicID not found", st)
    else
      d ← bind_text description;
      p ← bind_text parent_id;
      let topic := Topic.mk name d p in
      table ← session_add new_id topic (topics st);
      Ok (mkresp 201 (TopicJson new_id topic), mkdb table (skills st)).

(** PUT /topics/<id> *)
Definition update_topic (id : string) (body : option json) (st : db)
  : res (response * db) :=
  match topics st !! id with
  | None => Ok (error 404 "Topic not found", st)
  | Some topic =>
    let payload := get_payload body in
    n ← dict_get payload "name" JNull;
    name ← str_strip (py_or n (JStr (Topic.name topic)));
    description ← dict_get payload "description" (of_text (Topic.description topic));
    parent_id ← dict_get payload "parentTopicID" (of_text (Topic.parent_topic_id topic));
    parent ← (if truthy parent_id then query_get (topics st) parent_id
              else Ok None);
    if truthy parent_id && bool_decide (parent = None) then
      Ok (error 422 "parentTopicID not found", st)
    else
      d ← bind_text description;
      p ← bind_text parent_id;
      let topic' := Topic.mk name d p in
      Ok (mkresp 200 (TopicJson id topic'), mkdb (<[id := topic']> (topics st)) (skills st))
  end.

(** DELETE /topics/<id> *)
Definition delete_topic (id : string) (st : db) : res (response * db) :=
  match topics st !! id with
  | None => Ok (error 404 "Topic not found", st)
  | Some topic =>
    let has_skills := has_skills id st in
    let has_topics := has_topics id st in
    if has_skills then
      Ok (error 409 "The topic has dependent skills, cannot delete the topic", st)
    else if has_topics then
      Ok (error 409 "The topic has dependent topics, cannot delete the topic", st)
    else
      Ok (mkresp 204 NoContent, mkdb (delete id (topics st)) (skills st))
  end.

(** ** Skill endpoints *)

(** GET /skills *)
Definition get_skills (st : db) : res (response * db) :=
  let rows := merge_sort skill_name_le (map_to_list (skills st)) in
  Ok (mkresp 200 (SkillList rows), st).

(** GET /skills/<id> *)
Definition get_skill_by_id (id : string) (st : db) : res (response * db) :=
  match skills st !! id with
  | None => Ok (error 404 "Skill not found", st)
  | Some skill => Ok (mkresp 200 (SkillJson id skill), st)
  end.

(** POST /skills *)
Definition create_skill (new_id : string) (body : option json) (st : db)
  : res (response * db) :=
  let payload := get_payload body in
  n ← dict_get payload "name" JNull;
  name ← str_strip (py_or n (JStr ""));
  topic_id ← dict_get payload "topicID" JNull;
  dv ← dict_get payload "difficulty" JNull;
  difficulty ← str_strip (py_or dv (JStr "unknown"));
  if bool_decide (name = "") then
    Ok (error 422 "Field 'name' is required.", st)
  else if negb (truthy topic_id) then
    Ok (error 422 "Field 'topicID' is required.", st)
  else
    topic ← query_get (topics st) topic_id;
    if bool_decide (topic = None) then
      Ok (error 422 "topicID not found", st)
    else
      t ← bind_text_required topic_id;
      let skill := Skill.mk name t difficulty in
      table ← session_add new_id skill (skills st);
      Ok (mkresp 201 (SkillJson new_id skill), mkdb (topics st) table).

(** PUT /skills/<id> *)
Definition update_skill (id : string) (body : option json) (st : db)
  : res (response * db) :=
  match skills st !! id with
  | None => Ok (error 404 "Skill not found", st)
  | Some skill =>
    let payload := get_payload body in
    n ← dict_get payload "name" JNull;
    name ← str_strip (py_or n (JStr (Skill.name skill)));
    topic_id ← dict_get payload "topicID" (JStr (Skill.topic_id skill));
    dv ← dict_get payload "difficulty" JNull;
    difficulty ← str_strip (py_or dv (JStr (Skill.difficulty skill)));
    topic ← query_get (topics st) topic_id;
    if bool_decide (topic = None) then
      Ok (error 422 "topicID not found", st)
    else
      t ← bind_text_required topic_id;
      let skill' := Skill.mk name t difficulty in
      Ok (mkresp 200 (SkillJson id skill'), mkdb (topics st) (<[id := skill']> (skills st)))
  end.

(** DELETE /skills/<id> *)
Definition delete_skill (id : string) (st : db) : res (response * db) :=
  match skills st !! id with
  | None => Ok (error 404 "Skill not found", st)
  | Some skill => Ok (mkresp 204 NoContent, mkdb (topics st) (delete id (skills st)))
  end.

(** ** Routing *)

Inductive request : Type :=
  | GET_topics
  | GET_topic (id : string)
  | POST_topics (body : option json)
  | PUT_topic (id : string) (body : option json)
  | DELETE_topic (id : string)
  | GET_skills
  | GET_skill (id : string)
  | POST_skills (body : option json)
  | PUT_skill (id : string) (body : option json)
  | DELETE_skill (id : string).

Definition route (new_id : string) (req : request) (st : db) : res (response * db) :=
  match req with
  | GET_topics => get_topics st
  | GET_topic id => get_topic_by_id id st
  | POST_topics body => create_topic new_id body st
  | PUT_topic id body => update_topic id body st
  | DELETE_topic id => delete_topic id st
  | GET_skills => get_skills st
  | GET_skill id => get_skill_by_id id st
  | POST_skills body => create_skill new_id body st
  | PUT_skill id body => update_skill id body st
  | DELETE_skill id => delete_skill id st
  end.

(** One request against the stored state.  An exception that leaves the
    handler is answered 500 and nothing was committed.  [new_id] is the
    primary key the store generates should the request insert a row. *)
Definition serve (new_id : string) (req : request) (st : db) : response * db :=
  match route new_id req st with
  | Ok out => out
  | Raise e => (mkresp 500 (Unhandled e), st)
  end.

End Service.

(** ** Notions the properties are stated with *)

(** Some Skill has [topicID == id]. *)
Definition dependent_skill (id : string) (st : db) : Prop :=
  ∃ sid skill, skills st !! sid = Some skill ∧ Skill.topic_id skill = id.

(** Some Topic has [parentTopicID == id]. *)
Definition dependent_topic (id : string) (st : db) : Prop :=
  ∃ tid topic, topics st !! tid = Some topic ∧ Topic.parent_topic_id topic = Some id.

(** A field [.strip()] can be called on once [or] supplied the fallback:
    absent, falsy, or a string. *)
Definition text_field (o : option json) : Prop :=
  match o with
  | None => True
  | Some v => truthy v = false ∨ ∃ s, v = JStr s
  end.

(** The string such a field stands for: its own value when that is a
    non-empty string, the fallback [d] otherwise. *)
Definition text_or (o : option json) (d : string) : string :=
  match o with
  | Some (JStr s) => if decide (s = "") then d else s
  | _ => d
  end.

(** A field bound to a nullable text column: absent, null or a string. *)
Definition nullable_text (o : option json) : Prop :=
  match o with
  | None => True
  | Some v => v = JNull ∨ ∃ s, v = JStr s
  end.

(** The column such a field leaves: its own value, the stored one when it
    is absent. *)
Definition column_or (o : option json) (prior : option string) : option string :=
  match o with
  | None => prior
  | Some (JStr s) => Some s
  | Some _ => None
  end.

(** The request leaves field [k] out: whatever dict the handler reads has
    no such key. *)
Definition omits (body : option json) (k : string) : Prop :=
  ∀ p, get_payload body = JObj p → p !! k = None.

(** The answer to a POST /skills that stored [skill] under [new_id]. *)
Definition skill_created (new_id : string) (skill : Skill.t) (st : db) : response * db :=
  (mkresp 201 (SkillJson new_id skill),
   mkdb (topics st) (<[new_id := skill]> (skills st))).

(** The answer to a PUT that stored [row] under [id]. *)
Definition skill_updated (id : string) (row : Skill.t) (st : db) : response * db :=
  (mkresp 200 (SkillJson id row), mkdb (topics st) (<[id := row]> (skills st))).

Definition topic_updated (id : string) (row : Topic.t) (st : db) : response * db :=
  (mkresp 200 (TopicJson id row), mkdb (<[id := row]> (topics st)) (skills st)).

(** The Skill a PUT with payload [p] makes of [skill] once its [topicID]
    resolved to [t]. *)
Definition skill_after (p : gmap string json) (skill : Skill.t) (t : string) : Skill.t :=
  Skill.mk (strip (text_or (p !! "name") (Skill.name skill))) t
           (strip (text_or (p !! "difficulty") (Skill.difficulty skill))).

(** [topicID] is absent and [t] is the stored one, or it is the string [t]. *)
Definition topic_id_resolves (p : gmap string json) (skill : Skill.t) (t : string) : Prop :=
  (p !! "topicID" = None ∧ t = Skill.topic_id skill) ∨ p !! "topicID" = Some (JStr t).

(** One row of a table inserted, replaced or removed. *)
Inductive table_write {A : Type} (m : gmap string A) : gmap string A → Prop :=
  | row_inserted (id : string) (row : A) :
      m !! id = None → table_write m (<[id := row]> m)
  | row_replaced (id : string) (row : A) :
      is_Some (m !! id) → table_write m (<[id := row]> m)
  | row_removed (id : string) :
      is_Some (m !! id) → table_write m (delete id m).

(** One write to the stored state: one row of one table. *)
Inductive single_write (st : db) : db → Prop :=
  | topic_write (m : gmap string Topic.t) :
      table_write (topics st) m → single_write st (mkdb m (skills st))
  | skill_write (m : gmap string Skill.t) :
      table_write (skills st) m → single_write st (mkdb (topics st) m).

(** POST, PUT and DELETE are the requests that write. *)
Definition writes (req : request) : bool :=
  match req with
  | POST_topics _ | PUT_topic _ _ | DELETE_topic _
  | POST_skills _ | PUT_skill _ _ | DELETE_skill _ => true
  | _ => false
  end.

(** ** Stored states and request bodies to run the handlers on *)

Definition algorithms : Topic.t := Topic.mk "Algorithms" None None.
Definition graphs : Topic.t := Topic.mk "Graphs" (Some "graph algorithms") (Some "t1").
Definition sorting_skill : Skill.t := Skill.mk "Sorting" "t1" "unknown".

(** Topic "t1" has the Skill "s1" and the child Topic "t2". *)
Definition db0 : db :=
  mkdb (<["t1" := algorithms]> (<["t2" := graphs]> ∅)) (<["s1" := sorting_skill]> ∅).

(** The same Topics and no Skill. *)
Definition db_topics : db := mkdb (topics db0) ∅.

(** A state whose names carry surrounding blanks. *)
Definition db_blanks : db :=
  mkdb (<["t1" := Topic.mk "  Algorithms " None None]> ∅)
       (<["s1" := Skill.mk " Sorting  " "t1" "easy"]> ∅).

(** A JSON object body. *)
Definition obj (fields : list (string * json)) : option json :=
  Some (JObj (list_to_map fields)).

Definition blank_topic : option json := obj [("name", JStr "  ")].
Definition orphan_topic : option json :=
  obj [("name", JStr "Trees"); ("parentTopicID", JStr "t9")].
Definition rootless_topic : option json :=
  obj [("name", JStr "Trees"); ("parentTopicID", JStr "")].
Definition skill_plain : option json :=
  obj [("name", JStr "Merging"); ("topicID", JStr "t1")].
Definition skill_hard : option json :=
  obj [("name", JStr "Merging"); ("topicID", JStr "t1"); ("difficulty", JStr " hard ")].
Definition skill_blank : option json :=
  obj [("name", JStr "Merging"); ("topicID", JStr "t1"); ("difficulty", JStr "  ")].
Definition retitle : option json := obj [("name", JStr " Quicksort ")].
Definition move_skill : option json := obj [("topicID", JStr "t9")].
Definition null_topic : option json := obj [("topicID", JNull)].
Definition detach : option json := obj [("parentTopicID", JNull)].

(** ** Notions for what the handlers keep and accept *)

(** Every Skill's [topic_id] is the id of a stored Topic. *)
Definition skill_refs_ok (st : db) : Prop :=
  ∀ sid skill, skills st !! sid = Some skill →
    is_Some (topics st !! Skill.topic_id skill).

(** Every Topic's parent that is a non-empty string is the id of a stored
    Topic. *)
Definition parent_refs_ok (st : db) : Prop :=
  ∀ tid topic k, topics st !! tid = Some topic →
    Topic.parent_topic_id topic = Some k → k ≠ "" → is_Some (topics st !! k).

Definition refs_ok (st : db) : Prop := skill_refs_ok st ∧ parent_refs_ok st.

(** Stored names and difficulties carry no surrounding whitespace. *)
Definition trimmed (st : db) : Prop :=
  (∀ tid topic, topics st !! tid = Some topic →
     strip (Topic.name topic) = Topic.name topic)
  ∧ (∀ sid skill, skills st !! sid = Some skill →
       strip (Skill.name skill) = Skill.name skill
       ∧ strip (Skill.difficulty skill) = Skill.difficulty skill).

(** The reference a POST or PUT carries, [parentTopicID] for a Topic and
    [topicID] for a Skill, is absent, null or a string. *)
Definition ids_are_text (req : request) : Prop :=
  match req with
  | POST_topics body | PUT_topic _ body =>
      ∀ p, get_payload body = JObj p → nullable_text (p !! "parentTopicID")
  | POST_skills body | PUT_skill _ body =>
      ∀ p, get_payload body = JObj p → nullable_text (p !! "topicID")
  | _ => True
  end.

(** The routes under /topics. *)
Definition topic_route (req : request) : bool :=
  match req with
  | GET_topics | GET_topic _ | POST_topics _ | PUT_topic _ _ | DELETE_topic _ => true
  | _ => false
  end.

(** A parent value the Topic handlers let through, and the column it
    leaves: null, the empty string, or the id of a stored Topic. *)
Definition accepted_parent (st : db) (v : json) (parent : option string) : Prop :=
  match v with
  | JNull => parent = None
  | JStr k => parent = Some k ∧ (k = "" ∨ is_Some (topics st !! k))
  | _ => False
  end.

(** [parentTopicID] is absent and [k] is the stored parent, or it is the
    string [k]. *)
Definition parent_resolves (p : gmap string json) (topic : Topic.t) (k : string) : Prop :=
  (p !! "parentTopicID" = None ∧ Topic.parent_topic_id topic = Some k)
  ∨ p !! "parentTopicID" = Some (JStr k).

(** The answer to a POST /topics that stored [topic] under [new_id]. *)
Definition topic_created (new_id : string) (topic : Topic.t) (st : db) : response * db :=
  (mkresp 201 (TopicJson new_id topic),
   mkdb (<[new_id := topic]> (topics st)) (skills st)).

(** A JSON body that is truthy and not an object: a non-empty array or
    string, a non-zero number, [true]. *)
Definition not_a_dict (v : json) : Prop := truthy v = true ∧ ∀ m, v ≠ JObj m.

(** One Topic with one Skill and no child Topic. *)
Definition db_single : db :=
  mkdb (<["t1" := algorithms]> ∅) (<["s1" := sorting_skill]> ∅).

Definition tree_topic : option json :=
  obj [("name", JStr " Trees "); ("description", JStr " about trees ");
       ("parentTopicID", JStr "t1")].
Definition nameless_skill : option json := obj [("topicID", JStr "t1")].
Definition topicless_skill : option json := obj [("name", JStr "Merging")].
Definition misplaced_skill : option json :=
  obj [("name", JStr "Merging"); ("topicID", JStr "t9")].
Definition rename_topic : option json :=
  obj [("name", JStr " Graph theory "); ("description", JNull)].
Definition reparent_topic : option json := obj [("parentTopicID", JStr "t9")].
Definition self_parent : option json := obj [("parentTopicID", JStr "t2")].
Definition graph_skill : option json :=
  obj [("name", JStr "BFS"); ("topicID", JStr "t2")].

(** * Properties *)

(** ** Running a handler *)

(** One step of a handler: run the binds whose argument is known. *)
Ltac run :=
  cbn [dict_get mbind res_bind default from_option id negb andb
       query_get bind_text bind_text_required of_text].

Lemma bind_ok {A B : Type} (m : res A) (f : A → res B) (b : B) :
  m ≫= f = Ok b → ∃ a, m = Ok a ∧ f a = Ok b.
Proof. destruct m as [a|e]; [eauto|discriminate]. Qed.

(** Take apart a handler run that returned. *)
Ltac returned :=
  repeat match goal with
  | H : _ ≫= _ = Ok _ |- _ => apply bind_ok in H as (? & ? & H)
  | H : (if ?c then _ else _) = Ok _ |- _ => destruct c eqn:?
  | H : match ?m with Some _ => _ | None => _ end = Ok _ |- _ => destruct m eqn:?
  | H : Raise _ = Ok _ |- _ => discriminate H
  | H : Ok _ = Ok _ |- _ => simplify_eq
  end.

(** The answer of [serve] when it is not a 500. *)
Lemma serve_returned collate new_id req st r st' :
  serve collate new_id req st = (r, st') → status r ≠ 500 →
  route collate new_id req st = Ok (r, st').
Proof.
  unfold serve. destruct (route collate new_id req st) as [out|e].
  - by intros ->.
  - intros [= <- <-]. done.
Qed.

Example strip_blanks : strip "  a b 	" = "a b".
Proof. reflexivity. Qed.

Example strip_only_blanks : strip "   " = "".
Proof. reflexivity. Qed.

Example utf8_nbsp : utf8 160 = String (ascii_of_nat 194) (String (ascii_of_nat 160) "").
Proof. reflexivity. Qed.

Example strip_unicode_blanks :
  strip (utf8 160 +:+ " a" +:+ utf8 8195 +:+ "b" +:+ utf8 12288 +:+ utf8 133)
  = "a" +:+ utf8 8195 +:+ "b".
Proof. vm_compute. reflexivity. Qed.

Example strip_only_unicode_blanks : strip (utf8 160 +:+ utf8 8232) = "".
Proof. vm_compute. reflexivity. Qed.

(** U+00E0, U+2020 and U+200B end in bytes a blank also ends in and are
    kept. *)
Example strip_keeps_letters :
  strip (utf8 8224 +:+ utf8 8203 +:+ utf8 224) = utf8 8224 +:+ utf8 8203 +:+ utf8 224.
Proof. vm_compute. reflexivity. Qed.

Example create_topic_unicode_blank_name :
  serve String.leb "t3"
    (POST_topics (obj [("name", JStr (utf8 160)); ("parentTopicID", JStr "t9")])) db0
  = (error 422 "Field 'name' is required.", db0).
Proof. vm_compute. reflexivity. Qed.

Example update_topic_unicode_blank_stored :
  (serve String.leb "n" (PUT_topic "t1" None)
     (mkdb (<["t1" := Topic.mk (utf8 160 +:+ "A") None None]> ∅) ∅)).1
  = mkresp 200 (TopicJson "t1" (Topic.mk "A" None None)).
Proof. vm_compute. reflexivity. Qed.

Example list_topics_db0 :
  (serve String.leb "n" GET_topics db0).1
  = mkresp 200 (TopicList [("t1", algorithms); ("t2", graphs)]).
Proof. vm_compute. reflexivity. Qed.

Lemma str_strip_or (o : option json) (d : string) :
  text_field o →
  str_strip (py_or (default JNull o) (JStr d)) = Ok (strip (text_or o d)).
Proof.
  destruct o as [v|]; simpl; [|done].
  intros [Hf|[s ->]].
  - unfold py_or. rewrite Hf. simpl. destruct v; try done.
    simpl in Hf. case_decide; [done|]. by rewrite bool_decide_eq_false_2 in Hf.
  - unfold py_or. simpl. case_decide as Hs.
    + subst s. done.
    + by rewrite bool_decide_eq_false_2.
Qed.

Lemma truthy_str (s : string) : s ≠ "" → truthy (JStr s) = true.
Proof. intros Hs. simpl. by rewrite bool_decide_eq_false_2. Qed.

(** ** Dependents, as the two [exists()] queries see them *)

Lemma has_skills_true id st : has_skills id st = true ↔ dependent_skill id st.
Proof.
  unfold has_skills, dependent_skill. rewrite bool_decide_eq_true.
  unfold map_Exists. naive_solver.
Qed.

Lemma has_topics_true id st : has_topics id st = true ↔ dependent_topic id st.
Proof.
  unfold has_topics, dependent_topic. rewrite bool_decide_eq_true.
  unfold map_Exists. naive_solver.
Qed.

Lemma has_skills_false id st : has_skills id st = false ↔ ¬ dependent_skill id st.
Proof. rewrite <- has_skills_true. destruct (has_skills id st); naive_solver. Qed.

Lemma has_topics_false id st : has_topics id st = false ↔ ¬ dependent_topic id st.
Proof. rewrite <- has_topics_true. destruct (has_topics id st); naive_solver. Qed.

(** ** Deleting a Topic *)

Section Deleting.
Context (collate : string → string → bool) (new_id : string).

(** C2. DELETE /topics/<id>: 404 when the id is absent; 409 with the
    skill message when a Skill references the Topic, whether or not a child
    Topic does; 409 with the topic message when only a child Topic does;
    otherwise the row is removed and the answer is 204.  Both checks read
    the state the request found, and on 404 and 409 that state is kept. *)
Theorem delete_topic_cases (id : string) (st : db) :
  (topics st !! id = None →
     serve collate new_id (DELETE_topic id) st = (error 404 "Topic not found", st))
  ∧ (is_Some (topics st !! id) → dependent_skill id st →
     serve collate new_id (DELETE_topic id) st
     = (error 409 "The topic has dependent skills, cannot delete the topic", st))
  ∧ (is_Some (topics st !! id) → ¬ dependent_skill id st → dependent_topic id st →
     serve collate new_id (DELETE_topic id) st
     = (error 409 "The topic has dependent topics, cannot delete the topic", st))
  ∧ (is_Some (topics st !! id) → ¬ dependent_skill id st → ¬ dependent_topic id st →
     serve collate new_id (DELETE_topic id) st
     = (mkresp 204 NoContent, mkdb (delete id (topics st)) (skills st))).
Proof.
  unfold serve, route, delete_topic.
  split; [intros ->; done|].
  split; [|split].
  - intros [t ->] Hs%has_skills_true. by rewrite Hs.
  - intros [t ->] Hs%has_skills_false Ht%has_topics_true. by rewrite Hs, Ht.
  - intros [t ->] Hs%has_skills_false Ht%has_topics_false. by rewrite Hs, Ht.
Qed.

(** C7. Deleting an existing Topic that no Skill and no Topic refers to is
    answered 204, and a GET of that id afterwards is answered 404. *)
Theorem delete_topic_then_get (next_id : string) (id : string) (st : db) :
  is_Some (topics st !! id) → ¬ dependent_skill id st → ¬ dependent_topic id st →
  ∃ st', serve collate new_id (DELETE_topic id) st = (mkresp 204 NoContent, st')
         ∧ serve collate next_id (GET_topic id) st' = (error 404 "Topic not found", st').
Proof.
  intros [t Ht] Hs%has_skills_false Hp%has_topics_false.
  eexists. split.
  - unfold serve, route, delete_topic. rewrite Ht, Hs, Hp. reflexivity.
  - unfold serve, route, get_topic_by_id. simpl. by rewrite lookup_delete_eq.
Qed.

End Deleting.

Lemma delete_topic_cases_witness :
  serve String.leb "n" (DELETE_topic "t9") db0 = (error 404 "Topic not found", db0)
  ∧ serve String.leb "n" (DELETE_topic "t1") db0
    = (error 409 "The topic has dependent skills, cannot delete the topic", db0)
  ∧ serve String.leb "n" (DELETE_topic "t1") db_topics
    = (error 409 "The topic has dependent topics, cannot delete the topic", db_topics)
  ∧ serve String.leb "n" (DELETE_topic "t2") db0
    = (mkresp 204 NoContent, mkdb (delete "t2" (topics db0)) (skills db0)).
Proof.
  split; [|split; [|split]].
  - apply (delete_topic_cases String.leb "n" "t9" db0). reflexivity.
  - apply (delete_topic_cases String.leb "n" "t1" db0).
    + vm_compute. eauto.
    + apply has_skills_true. vm_compute. reflexivity.
  - apply (delete_topic_cases String.leb "n" "t1" db_topics).
    + vm_compute. eauto.
    + apply has_skills_false. vm_compute. reflexivity.
    + apply has_topics_true. vm_compute. reflexivity.
  - apply (delete_topic_cases String.leb "n" "t2" db0).
    + vm_compute. eauto.
    + apply has_skills_false. vm_compute. reflexivity.
    + apply has_topics_false. vm_compute. reflexivity.
Defined.

Lemma delete_topic_then_get_witness :
  ∃ st', serve String.leb "n1" (DELETE_topic "t2") db0 = (mkresp 204 NoContent, st')
         ∧ serve String.leb "n2" (GET_topic "t2") st' = (error 404 "Topic not found", st').
Proof.
  apply (delete_topic_then_get String.leb "n1" "n2" "t2" db0).
  - vm_compute. eauto.
  - apply has_skills_false. vm_compute. reflexivity.
  - apply has_topics_false. vm_compute. reflexivity.
Defined.

(** ** Listing *)

Section Listing.
Context (collate : string → string → bool) (new_id : string).
Hypothesis collate_total : ∀ a b, collate a b = true ∨ collate b a = true.
Hypothesis collate_trans :
  ∀ a b c, collate a b = true → collate b c = true → collate a c = true.

#[local] Instance topic_name_le_total : Total (topic_name_le collate).
Proof. intros x y. apply collate_total. Qed.

#[local] Instance topic_name_le_trans : Transitive (topic_name_le collate).
Proof. intros x y z. apply collate_trans. Qed.

#[local] Instance skill_name_le_total : Total (skill_name_le collate).
Proof. intros x y. apply collate_total. Qed.

#[local] Instance skill_name_le_trans : Transitive (skill_name_le collate).
Proof. intros x y z. apply collate_trans. Qed.

(** C8. GET /topics and GET /skills answer 200 with every stored row exactly
    once, each name sorting no later than all names after it. *)
Theorem list_sorted_by_name (st : db) :
  (∃ rows, serve collate new_id GET_topics st = (mkresp 200 (TopicList rows), st)
           ∧ rows ≡ₚ map_to_list (topics st)
           ∧ StronglySorted (topic_name_le collate) rows)
  ∧ (∃ rows, serve collate new_id GET_skills st = (mkresp 200 (SkillList rows), st)
             ∧ rows ≡ₚ map_to_list (skills st)
             ∧ StronglySorted (skill_name_le collate) rows).
Proof.
  split; eexists; (split; [reflexivity|]); split.
  - apply merge_sort_Permutation.
  - apply (StronglySorted_merge_sort _).
  - apply merge_sort_Permutation.
  - apply (StronglySorted_merge_sort _).
Qed.

End Listing.

Lemma leb_total (a b : string) : String.leb a b = true ∨ String.leb b a = true.
Proof. apply String.leb_total. Qed.

Lemma leb_trans (a b c : string) :
  String.leb a b = true → String.leb b c = true → String.leb a c = true.
Proof.
  intros H1 H2. apply Is_true_true.
  apply Is_true_true in H1, H2.
  exact (transitivity (R := String.le) H1 H2).
Qed.

Lemma list_sorted_by_name_witness :
  (∃ rows, serve String.leb "n" GET_topics db0 = (mkresp 200 (TopicList rows), db0)
           ∧ rows ≡ₚ map_to_list (topics db0)
           ∧ StronglySorted (topic_name_le String.leb) rows)
  ∧ (∃ rows, serve String.leb "n" GET_skills db0 = (mkresp 200 (SkillList rows), db0)
             ∧ rows ≡ₚ map_to_list (skills db0)
             ∧ StronglySorted (skill_name_le String.leb) rows).
Proof. exact (list_sorted_by_name String.leb "n" leb_total leb_trans db0). Defined.

(** ** Creating *)

Section Creating.
Context (collate : string → string → bool) (new_id : string).

(** C4, as the code has it.  POST /topics is answered 422 "Field 'name' is
    required." when the name is empty after trimming, and 422
    "parentTopicID not found" when the name is not and [parentTopicID] is a
    non-empty string that is the id of no Topic; the stored state is kept
    in both cases. *)
Theorem create_topic_validation (body : option json) (p : gmap string json) (st : db) :
  get_payload body = JObj p →
  text_field (p !! "name") →
  (strip (text_or (p !! "name") "") = "" →
     serve collate new_id (POST_topics body) st
     = (error 422 "Field 'name' is required.", st))
  ∧ (∀ k, strip (text_or (p !! "name") "") ≠ "" →
       p !! "parentTopicID" = Some (JStr k) → k ≠ "" → topics st !! k = None →
       serve collate new_id (POST_topics body) st
       = (error 422 "parentTopicID not found", st)).
Proof.
  intros Hp Hn. unfold serve, route, create_topic. rewrite Hp. run.
  rewrite (str_strip_or _ _ Hn). run. split.
  - intros ->. done.
  - intros k Hne Hk Hk0 Hnone. rewrite bool_decide_eq_false_2 by done.
    rewrite Hk. run. rewrite (truthy_str _ Hk0). run.
    rewrite Hnone. done.
Qed.

(** C3, as the code has it.  A POST /skills that passes validation stores
    the difficulty "unknown" when the field is absent or falsy (null, the
    empty string), and the trimmed field when it is a string that is not
    blank. *)
Theorem create_skill_difficulty (body : option json) (p : gmap string json)
    (t : string) (st : db) :
  get_payload body = JObj p →
  text_field (p !! "name") → strip (text_or (p !! "name") "") ≠ "" →
  p !! "topicID" = Some (JStr t) → t ≠ "" → is_Some (topics st !! t) →
  skills st !! new_id = None →
  ((p !! "difficulty" = None ∨ ∃ v, p !! "difficulty" = Some v ∧ truthy v = false) →
     serve collate new_id (POST_skills body) st
     = skill_created new_id (Skill.mk (strip (text_or (p !! "name") "")) t "unknown") st)
  ∧ (∀ s, p !! "difficulty" = Some (JStr s) → strip s ≠ "" →
       serve collate new_id (POST_skills body) st
       = skill_created new_id (Skill.mk (strip (text_or (p !! "name") "")) t (strip s)) st).
Proof.
  intros Hp Hn Hne Ht Ht0 [topic Htopic] Hfresh.
  assert (Hrest : ∀ d,
    str_strip (py_or (default JNull (p !! "difficulty")) (JStr "unknown")) = Ok d →
    serve collate new_id (POST_skills body) st
    = skill_created new_id (Skill.mk (strip (text_or (p !! "name") "")) t d) st).
  { intros d Hd. unfold serve, route, create_skill. rewrite Hp.
    run. rewrite (str_strip_or _ _ Hn), Hd, Ht.
    run. rewrite bool_decide_eq_false_2 by done.
    rewrite (truthy_str _ Ht0). run.
    rewrite Htopic. unfold session_add. rewrite Hfresh. done. }
  split.
  - intros Hd. apply Hrest.
    destruct Hd as [->|[v [-> Hv]]]; simpl; [done|].
    unfold py_or. by rewrite Hv.
  - intros s Hs Hs0. apply Hrest. rewrite Hs. simpl. unfold py_or.
    rewrite truthy_str; [done|]. by intros ->.
Qed.

(** C10. POST /topics with no body, or with a body that is not valid JSON
    ([get_json] hands over [None]), is read as the empty payload, as is a
    body that is a falsy JSON value: the answer is 422 "Field 'name' is
    required." and the stored state is kept. *)
Theorem create_topic_without_json (body : option json) (st : db) :
  body = None ∨ (∃ v, body = Some v ∧ truthy v = false) →
  get_payload body = JObj ∅
  ∧ serve collate new_id (POST_topics body) st
    = (error 422 "Field 'name' is required.", st).
Proof.
  intros Hb.
  assert (Hp : get_payload body = JObj ∅).
  { destruct Hb as [->|[v [-> Hv]]]; [done|].
    unfold get_payload, py_or. by rewrite Hv. }
  split; [done|].
  unfold serve, route, create_topic. rewrite Hp. reflexivity.
Qed.

End Creating.

Lemma create_topic_validation_witness :
  serve String.leb "t3" (POST_topics blank_topic) db0
  = (error 422 "Field 'name' is required.", db0)
  ∧ serve String.leb "t3" (POST_topics orphan_topic) db0
    = (error 422 "parentTopicID not found", db0).
Proof.
  split.
  - apply (create_topic_validation String.leb "t3" blank_topic
             (list_to_map [("name", JStr "  ")]) db0).
    + reflexivity.
    + right. eexists. reflexivity.
    + reflexivity.
  - apply (create_topic_validation String.leb "t3" orphan_topic
             (list_to_map [("name", JStr "Trees"); ("parentTopicID", JStr "t9")])
             db0) with (k := "t9").
    + reflexivity.
    + right. eexists. reflexivity.
    + vm_compute. discriminate.
    + reflexivity.
    + discriminate.
    + reflexivity.
Defined.

(** C4 as stated fails: [parentTopicID] is supplied, no Topic has the id "",
    and the request is answered 201 with the row stored. *)
Lemma create_topic_empty_parent_counterexample :
  topics db0 !! "" = None
  ∧ serve String.leb "t3" (POST_topics rootless_topic) db0
    = (mkresp 201 (TopicJson "t3" (Topic.mk "Trees" None (Some ""))),
       mkdb (<["t3" := Topic.mk "Trees" None (Some "")]> (topics db0)) (skills db0))
  ∧ status (serve String.leb "t3" (POST_topics rootless_topic) db0).1 ≠ 422
  ∧ topics db0 !! "t3" = None
  ∧ topics (serve String.leb "t3" (POST_topics rootless_topic) db0).2 !! "t3"
    = Some (Topic.mk "Trees" None (Some "")).
Proof.
  split; [reflexivity|]. split; [vm_compute; reflexivity|].
  split; [vm_compute; discriminate|]. split; vm_compute; reflexivity.
Qed.

Lemma create_topic_without_json_witness :
  get_payload None = JObj ∅
  ∧ serve String.leb "t3" (POST_topics None) db0
    = (error 422 "Field 'name' is required.", db0).
Proof.
  apply (create_topic_without_json String.leb "t3" None db0).
  left. reflexivity.
Defined.

Lemma create_skill_difficulty_witness :
  serve String.leb "s2" (POST_skills skill_plain) db0
  = skill_created "s2" (Skill.mk "Merging" "t1" "unknown") db0
  ∧ serve String.leb "s2" (POST_skills skill_hard) db0
    = skill_created "s2" (Skill.mk "Merging" "t1" "hard") db0.
Proof.
  split.
  - refine (proj1 (create_skill_difficulty String.leb "s2" skill_plain
             (list_to_map [("name", JStr "Merging"); ("topicID", JStr "t1")])
             "t1" db0 _ _ _ _ _ _ _) _).
    + reflexivity.
    + right. eexists. reflexivity.
    + vm_compute. discriminate.
    + reflexivity.
    + discriminate.
    + vm_compute. eauto.
    + reflexivity.
    + left. reflexivity.
  - refine (proj2 (create_skill_difficulty String.leb "s2" skill_hard
             (list_to_map [("name", JStr "Merging"); ("topicID", JStr "t1");
                           ("difficulty", JStr " hard ")])
             "t1" db0 _ _ _ _ _ _ _) " hard " _ _).
    + reflexivity.
    + right. eexists. reflexivity.
    + vm_compute. discriminate.
    + reflexivity.
    + discriminate.
    + vm_compute. eauto.
    + reflexivity.
    + reflexivity.
    + vm_compute. discriminate.
Defined.

(** C3 as stated fails: the difficulty sent is whitespace only, and what
    is stored is the empty string, not "unknown". *)
Lemma create_skill_blank_difficulty_counterexample :
  strip "  " = ""
  ∧ serve String.leb "s2" (POST_skills skill_blank) db0
    = skill_created "s2" (Skill.mk "Merging" "t1" "") db0
  ∧ Skill.difficulty <$> skills (serve String.leb "s2" (POST_skills skill_blank) db0).2 !! "s2"
    ≠ Some "unknown".
Proof. repeat split; vm_compute; (reflexivity || discriminate). Qed.

(** ** Updating *)

Section Updating.
Context (collate : string → string → bool) (new_id : string).

(** C1, as the code has it.  PUT /skills/<id> on an existing Skill takes the
    stored [topicID] when the field is absent, looks the resolved id up
    again even when it did not change, answers 422 "topicID not found"
    and keeps the state when no Topic has it, and stores it otherwise.  A
    [topicID] of null is not replaced by the stored one: it names no Topic
    and is answered 422 "topicID not found". *)
Theorem update_skill_topic (id : string) (body : option json) (p : gmap string json)
    (skill : Skill.t) (st : db) :
  skills st !! id = Some skill →
  get_payload body = JObj p →
  text_field (p !! "name") → text_field (p !! "difficulty") →
  (∀ t, topic_id_resolves p skill t → topics st !! t = None →
     serve collate new_id (PUT_skill id body) st = (error 422 "topicID not found", st))
  ∧ (∀ t, topic_id_resolves p skill t → is_Some (topics st !! t) →
       serve collate new_id (PUT_skill id body) st
       = skill_updated id (skill_after p skill t) st)
  ∧ (p !! "topicID" = Some JNull →
       serve collate new_id (PUT_skill id body) st = (error 422 "topicID not found", st)).
Proof.
  intros Hs Hp Hn Hd.
  assert (Hrun : ∀ v, default (JStr (Skill.topic_id skill)) (p !! "topicID") = v →
    serve collate new_id (PUT_skill id body) st
    = match (topic ← query_get (topics st) v;
             if bool_decide (topic = None)
             then Ok (error 422 "topicID not found", st)
             else t ← bind_text_required v;
                  Ok (skill_updated id
                        (Skill.mk (strip (text_or (p !! "name") (Skill.name skill))) t
                           (strip (text_or (p !! "difficulty") (Skill.difficulty skill))))
                        st)) with
      | Ok out => out
      | Raise e => (mkresp 500 (Unhandled e), st)
      end).
  { intros v <-. unfold serve, route, update_skill. rewrite Hs, Hp. run.
    rewrite (str_strip_or _ _ Hn), (str_strip_or _ _ Hd). run. reflexivity. }
  assert (Hres : ∀ t, topic_id_resolves p skill t →
    default (JStr (Skill.topic_id skill)) (p !! "topicID") = JStr t).
  { intros t [[-> ->]| ->]; reflexivity. }
  split; [|split].
  - intros t Ht%Hres Hnone. rewrite (Hrun _ Ht). run. by rewrite Hnone.
  - intros t Ht%Hres [topic Htopic]. rewrite (Hrun _ Ht). run. by rewrite Htopic.
  - intros Hnull. rewrite (Hrun JNull) by (by rewrite Hnull). reflexivity.
Qed.

(** C6. A PUT that leaves [name] out and is answered 200 stores the
    trimmed form of the name the row had, for a Topic and for a Skill. *)
Theorem update_retrims_name (id : string) (body : option json) (st : db) :
  omits body "name" →
  (∀ old r st', topics st !! id = Some old →
     serve collate new_id (PUT_topic id body) st = (r, st') → status r = 200 →
     ∃ new, topics st' !! id = Some new ∧ Topic.name new = strip (Topic.name old))
  ∧ (∀ old r st', skills st !! id = Some old →
       serve collate new_id (PUT_skill id body) st = (r, st') → status r = 200 →
       ∃ new, skills st' !! id = Some new ∧ Skill.name new = strip (Skill.name old)).
Proof.
  intros Homit. unfold omits in Homit. split.
  - intros old r st' Hold Hout Hst.
    apply serve_returned in Hout; [|by rewrite Hst].
    unfold route, update_topic in Hout. rewrite Hold in Hout.
    destruct (get_payload body) as [| | | | |p] eqn:Hp; try discriminate Hout.
    cbn [dict_get] in Hout. rewrite (Homit p eq_refl) in Hout.
    returned; try discriminate Hst; simplify_eq/=.
    all: eexists; split; [apply lookup_insert_eq|done].
  - intros old r st' Hold Hout Hst.
    apply serve_returned in Hout; [|by rewrite Hst].
    unfold route, update_skill in Hout. rewrite Hold in Hout.
    destruct (get_payload body) as [| | | | |p] eqn:Hp; try discriminate Hout.
    cbn [dict_get] in Hout. rewrite (Homit p eq_refl) in Hout.
    returned; try discriminate Hst; simplify_eq/=.
    all: eexists; split; [apply lookup_insert_eq|done].
Qed.

(** C9. PUT /topics/<id> on an existing Topic with [parentTopicID] null is
    answered 200 and stores no parent, whatever Topics exist; with the
    field left out, a 200 keeps the parent the row had. *)
Theorem update_topic_null_parent (id : string) (body : option json)
    (p : gmap string json) (topic : Topic.t) (st : db) :
  topics st !! id = Some topic →
  get_payload body = JObj p →
  text_field (p !! "name") → nullable_text (p !! "description") →
  (p !! "parentTopicID" = Some JNull →
     serve collate new_id (PUT_topic id body) st
     = topic_updated id
         (Topic.mk (strip (text_or (p !! "name") (Topic.name topic)))
                   (column_or (p !! "description") (Topic.description topic))
                   None) st)
  ∧ (p !! "parentTopicID" = None →
     ∀ r st', serve collate new_id (PUT_topic id body) st = (r, st') → status r = 200 →
       ∃ new, topics st' !! id = Some new
              ∧ Topic.parent_topic_id new = Topic.parent_topic_id topic).
Proof.
  intros Ht Hp Hn Hd.
  assert (Hdesc : bind_text (default (of_text (Topic.description topic)) (p !! "description"))
                  = Ok (column_or (p !! "description") (Topic.description topic))).
  { destruct (p !! "description") as [v|]; simpl.
    - destruct Hd as [->|[s ->]]; reflexivity.
    - by destruct (Topic.description topic). }
  unfold serve, route, update_topic. rewrite Ht, Hp. run.
  rewrite (str_strip_or _ _ Hn). run. split.
  - intros ->. run. cbn [truthy andb]. run. rewrite Hdesc. reflexivity.
  - intros ->. run. intros r st'. rewrite Hdesc.
    destruct (Topic.parent_topic_id topic) as [k|] eqn:Hk; cbn [of_text truthy].
    + intros Hout Hst.
      match type of Hout with match ?m with _ => _ end = _ =>
        destruct m as [out|e] eqn:Hm end; [|by simplify_eq/=].
      subst out. returned; try discriminate Hst; simplify_eq/=.
      all: eexists; split; [apply lookup_insert_eq|done].
    + run. intros [= <- <-] _. eexists; split; [apply lookup_insert_eq|done].
Qed.

End Updating.

Lemma update_skill_topic_witness :
  serve String.leb "n" (PUT_skill "s1" retitle) db0
  = skill_updated "s1" (Skill.mk "Quicksort" "t1" "unknown") db0
  ∧ serve String.leb "n" (PUT_skill "s1" move_skill) db0
    = (error 422 "topicID not found", db0).
Proof.
  split.
  - refine (proj1 (proj2 (update_skill_topic String.leb "n" "s1" retitle
             (list_to_map [("name", JStr " Quicksort ")]) sorting_skill db0
             _ _ _ _)) "t1" _ _).
    + reflexivity.
    + reflexivity.
    + right. eexists. reflexivity.
    + exact I.
    + left. split; reflexivity.
    + vm_compute. eauto.
  - refine (proj1 (update_skill_topic String.leb "n" "s1" move_skill
             (list_to_map [("topicID", JStr "t9")]) sorting_skill db0
             _ _ _ _) "t9" _ _).
    + reflexivity.
    + reflexivity.
    + exact I.
    + exact I.
    + right. reflexivity.
    + reflexivity.
Defined.

(** C1 as stated fails: the Skill "s1" is stored with the existing Topic
    "t1", yet a PUT with [topicID] null is answered 422 instead of keeping
    "t1". *)
Lemma update_skill_null_topic_counterexample :
  skills db0 !! "s1" = Some sorting_skill
  ∧ Skill.topic_id sorting_skill = "t1"
  ∧ topics db0 !! "t1" = Some algorithms
  ∧ serve String.leb "n" (PUT_skill "s1" null_topic) db0
    = (error 422 "topicID not found", db0)
  ∧ status (serve String.leb "n" (PUT_skill "s1" null_topic) db0).1
    ≠ status (serve String.leb "n" (PUT_skill "s1" None) db0).1.
Proof. repeat split; vm_compute; (reflexivity || discriminate). Qed.

Lemma update_retrims_name_witness :
  (∃ new, topics (serve String.leb "n" (PUT_topic "t1" None) db_blanks).2 !! "t1" = Some new
          ∧ Topic.name new = strip "  Algorithms ")
  ∧ (∃ new, skills (serve String.leb "n" (PUT_skill "s1" None) db_blanks).2 !! "s1" = Some new
            ∧ Skill.name new = strip " Sorting  ").
Proof.
  assert (Homit : omits None "name").
  { intros p [= <-]. reflexivity. }
  destruct (update_retrims_name String.leb "n" "t1" None db_blanks Homit) as [HT _].
  destruct (update_retrims_name String.leb "n" "s1" None db_blanks Homit) as [_ HS].
  split.
  - apply (HT (Topic.mk "  Algorithms " None None)
              (serve String.leb "n" (PUT_topic "t1" None) db_blanks).1).
    + reflexivity.
    + vm_compute. reflexivity.
    + reflexivity.
  - apply (HS (Skill.mk " Sorting  " "t1" "easy")
              (serve String.leb "n" (PUT_skill "s1" None) db_blanks).1).
    + reflexivity.
    + vm_compute. reflexivity.
    + reflexivity.
Defined.

Lemma update_topic_null_parent_witness :
  serve String.leb "n" (PUT_topic "t2" detach) db0
  = topic_updated "t2" (Topic.mk "Graphs" (Some "graph algorithms") None) db0.
Proof.
  refine (proj1 (update_topic_null_parent String.leb "n" "t2" detach
            (list_to_map [("parentTopicID", JNull)]) graphs db0 _ _ _ _) _).
  - reflexivity.
  - reflexivity.
  - exact I.
  - exact I.
  - reflexivity.
Defined.

(** ** One write or none *)

Section Atomicity.
Context (collate : string → string → bool) (new_id : string).

(** C5. Whatever the request, the stored state after it is the state before
    it or that state with one row written; it is the state before it when
    the answer is 422, 404 or 409; and a POST, PUT or DELETE answered 200,
    201 or 204 wrote one row. *)
Theorem no_partial_write (req : request) (st : db) (r : response) (st' : db) :
  serve collate new_id req st = (r, st') →
  (status r = 422 ∨ status r = 404 ∨ status r = 409 → st' = st)
  ∧ (st' = st ∨ single_write st st')
  ∧ (writes req = true → status r = 200 ∨ status r = 201 ∨ status r = 204 →
     single_write st st').
Proof.
  unfold serve. destruct (route collate new_id req st) as [out|e] eqn:Hroute.
  2:{ intros [= <- <-]. cbn. split; [done|]. split; [by left|].
      intros _ [?|[?|?]]; discriminate. }
  intros ->.
  destruct req; cbn [route] in Hroute;
    unfold get_topics, get_topic_by_id, create_topic, update_topic, delete_topic,
           get_skills, get_skill_by_id, create_skill, update_skill, delete_skill,
           session_add in Hroute;
    returned; cbn [status error writes];
    (split; [by (intros [?|[?|?]]; done)|]);
    (split; [|try by (intros ? [?|[?|?]]; done)]).
  all: try (left; reflexivity).
  all: try (right; constructor; constructor; by eauto).
  all: intros _ _; constructor; constructor; by eauto.
Qed.

End Atomicity.

Lemma no_partial_write_witness :
  (status (error 422 "parentTopicID not found") = 422
   ∨ status (error 422 "parentTopicID not found") = 404
   ∨ status (error 422 "parentTopicID not found") = 409 → db0 = db0)
  ∧ (db0 = db0 ∨ single_write db0 db0)
  ∧ (writes (POST_topics orphan_topic) = true →
     status (error 422 "parentTopicID not found") = 200
     ∨ status (error 422 "parentTopicID not found") = 201
     ∨ status (error 422 "parentTopicID not found") = 204 →
     single_write db0 db0).
Proof.
  apply (no_partial_write String.leb "t3" (POST_topics orphan_topic) db0
           (error 422 "parentTopicID not found") db0).
  vm_compute. reflexivity.
Defined.

(** * Further properties of the handlers *)

(** ** [str.strip] applied twice *)

Lemma string_app_cons (a : ascii) (s t : string) : String a s +:+ t = String a (s +:+ t).
Proof. reflexivity. Qed.

Lemma string_app_nil_r (s : string) : s +:+ "" = s.
Proof. induction s as [|a s IH]; [done|]. by rewrite string_app_cons, IH. Qed.

Lemma string_app_assoc (a b c : string) : (a +:+ b) +:+ c = a +:+ (b +:+ c).
Proof. induction a as [|x a IH]; [done|]. by rewrite !string_app_cons, IH. Qed.

Lemma string_rev_app_spec (s1 s2 : string) : String.rev_app s1 s2 = String.rev s1 +:+ s2.
Proof.
  revert s2. induction s1 as [|a s1 IH]; intros s2; [done|].
  unfold String.rev. simpl. rewrite (IH (String a s2)), (IH (String a "")).
  by rewrite string_app_assoc.
Qed.

Lemma string_rev_cons (a : ascii) (s : string) :
  String.rev (String a s) = String.rev s +:+ String a "".
Proof. unfold String.rev at 1. simpl. apply string_rev_app_spec. Qed.

Lemma string_rev_app_distr (s1 s2 : string) :
  String.rev (s1 +:+ s2) = String.rev s2 +:+ String.rev s1.
Proof.
  induction s1 as [|a s1 IH].
  - by rewrite string_app_nil_r.
  - by rewrite string_app_cons, !string_rev_cons, IH, string_app_assoc.
Qed.

Lemma string_rev_involutive (s : string) : String.rev (String.rev s) = s.
Proof.
  induction s as [|a s IH]; [done|].
  by rewrite string_rev_cons, string_rev_app_distr, IH.
Qed.

Lemma string_length_app (a b : string) :
  String.length (a +:+ b) = (String.length a + String.length b)%nat.
Proof. induction a as [|x a IH]; [done|]. rewrite string_app_cons. cbn. by rewrite IH. Qed.

Lemma after_prefix_spec (w s r : string) : after_prefix w s = Some r ↔ s = w +:+ r.
Proof.
  revert s. induction w as [|a w IH]; intros s; cbn.
  - split; [by intros [= ->]|by intros ->].
  - destruct s as [|b s]; [done|]. rewrite string_app_cons.
    destruct (Ascii.eqb_spec a b) as [->|Hab].
    + rewrite IH. split; [by intros ->|by intros [= ->]].
    + split; [done|]. by intros [= <- _].
Qed.

Lemma after_any_some (ws : list string) (s r : string) :
  after_any ws s = Some r → ∃ w, w ∈ ws ∧ s = w +:+ r.
Proof.
  induction ws as [|w ws IH]; cbn; [done|].
  destruct (after_prefix w s) as [r'|] eqn:Hw.
  - intros [= ->]. exists w. split; [left|]. by apply after_prefix_spec.
  - intros (w' & Hin & ->)%IH. exists w'. split; [by right|done].
Qed.

Lemma after_any_none (ws : list string) (s : string) :
  after_any ws s = None ↔ ∀ w, w ∈ ws → after_prefix w s = None.
Proof.
  induction ws as [|w ws IH]; cbn.
  - split; [|done]. intros _ w Hw. by apply elem_of_nil in Hw.
  - destruct (after_prefix w s) as [r|] eqn:Hw.
    + split; [done|]. intros H. by rewrite (H w) in Hw by left.
    + rewrite IH. split.
      * intros H w' [->|Hin]%elem_of_cons; auto.
      * intros H w' Hin. apply H. by right.
Qed.

(** A string without a leading character out of [ws] has no prefix with
    one. *)
Lemma after_any_none_prefix (ws : list string) (r t : string) :
  after_any ws (r +:+ t) = None → after_any ws r = None.
Proof.
  rewrite !after_any_none. intros H w Hw.
  destruct (after_prefix w r) as [x|] eqn:Hx; [|done].
  apply after_prefix_spec in Hx as ->.
  specialize (H w Hw). rewrite string_app_assoc in H.
  by rewrite (proj2 (after_prefix_spec w _ (x +:+ t)) eq_refl) in H.
Qed.

Lemma lstrip_go_done (ws : list string) (n : nat) (s : string) :
  after_any ws s = None → lstrip_go ws n s = s.
Proof. intros H. destruct n; cbn; [done|]. by rewrite H. Qed.

Lemma lstrip_go_suffix (ws : list string) (n : nat) (s : string) :
  ∃ pre, s = pre +:+ lstrip_go ws n s.
Proof.
  revert s. induction n as [|n IH]; intros s; cbn; [by exists ""|].
  destruct (after_any ws s) as [r|] eqn:Hr; [|by exists ""].
  apply after_any_some in Hr as (w & _ & ->).
  destruct (IH r) as [pre Hpre]. exists (w +:+ pre).
  by rewrite string_app_assoc, <- Hpre.
Qed.

Lemma lstrip_go_fixed (ws : list string) (n : nat) (s : string) :
  Forall (λ w, w ≠ "") ws → (String.length s ≤ n)%nat →
  after_any ws (lstrip_go ws n s) = None.
Proof.
  intros Hws. revert s. induction n as [|n IH]; intros s Hn; cbn.
  - destruct s; [|cbn in Hn; lia].
    apply after_any_none. intros w Hw.
    rewrite Forall_forall in Hws. specialize (Hws w Hw). by destruct w.
  - destruct (after_any ws s) as [r|] eqn:Hr; [|done].
    apply IH. apply after_any_some in Hr as (w & Hw & ->).
    rewrite Forall_forall in Hws. specialize (Hws w Hw).
    rewrite string_length_app in Hn. destruct w; [done|]. cbn in Hn. lia.
Qed.

Lemma whitespace_solid :
  Forall (λ w, w ≠ "") whitespace ∧ Forall (λ w, w ≠ "") (String.rev <$> whitespace).
Proof. split; vm_compute; repeat constructor; discriminate. Qed.

Lemma lstrip_of_fixed (ws : list string) (s : string) :
  Forall (λ w, w ≠ "") ws → after_any ws (lstrip_of ws s) = None.
Proof. intros Hws. by apply lstrip_go_fixed. Qed.

(** [s.strip().strip()] is [s.strip()]. *)
Lemma strip_idemp (s : string) : strip (strip s) = strip s.
Proof.
  destruct whitespace_solid as [Hl Hr].
  unfold strip at 2 3. unfold rstrip.
  pose proof (lstrip_of_fixed _ s Hl) as Hu. fold (lstrip s) in Hu.
  pose proof (lstrip_of_fixed _ (String.rev (lstrip s)) Hr) as Hx.
  destruct (lstrip_go_suffix (String.rev <$> whitespace)
              (String.length (String.rev (lstrip s))) (String.rev (lstrip s)))
    as [pre Hpre].
  fold (lstrip_of (String.rev <$> whitespace) (String.rev (lstrip s))) in Hpre.
  set (x := lstrip_of (String.rev <$> whitespace) (String.rev (lstrip s))) in *.
  apply (f_equal String.rev) in Hpre.
  rewrite string_rev_involutive, string_rev_app_distr in Hpre.
  rewrite Hpre in Hu. apply after_any_none_prefix in Hu.
  unfold strip, rstrip, lstrip, lstrip_of at 2.
  rewrite (lstrip_go_done _ _ _ Hu), string_rev_involutive.
  unfold lstrip_of. by rewrite (lstrip_go_done _ _ _ Hx).
Qed.

(** ** What a handler run that returned did *)

(** Take apart the binds of a handler run that returned. *)
Ltac binds :=
  repeat match goal with
  | H : _ ≫= _ = Ok _ |- _ => apply bind_ok in H as (? & ? & H)
  end.

Lemma str_strip_ok (v : json) (x : string) :
  str_strip v = Ok x → ∃ s, v = JStr s ∧ x = strip s.
Proof. destruct v; try discriminate. intros [= <-]. eauto. Qed.

Lemma str_strip_trimmed (v : json) (x : string) : str_strip v = Ok x → strip x = x.
Proof. intros (s & _ & ->)%str_strip_ok. apply strip_idemp. Qed.

Lemma parent_checked {A : Type} (tbl : gmap string A) (v : json)
    (parent : option A) (p : option string) :
  (if truthy v then query_get tbl v else Ok None) = Ok parent →
  truthy v && bool_decide (parent = None) = false →
  bind_text v = Ok p →
  ∀ k, p = Some k → k ≠ "" → is_Some (tbl !! k).
Proof.
  intros Hq Hc Hb k -> Hk.
  destruct v; try discriminate Hb. injection Hb as ->.
  rewrite (truthy_str _ Hk) in Hq, Hc. cbn in Hq. injection Hq as <-.
  cbn in Hc. apply bool_decide_eq_false in Hc.
  by destruct (tbl !! k).
Qed.

Lemma topic_checked {A : Type} (tbl : gmap string A) (v : json)
    (topic : option A) (t : string) :
  query_get tbl v = Ok topic → bool_decide (topic = None) = false →
  bind_text_required v = Ok t → v = JStr t ∧ is_Some (tbl !! t).
Proof.
  intros Hq Hc Hb. destruct v; try discriminate Hb. injection Hb as ->.
  cbn in Hq. injection Hq as <-. apply bool_decide_eq_false in Hc.
  split; [done|]. by destruct (tbl !! t).
Qed.

Section Outcomes.
Context (new_id : string).

Lemma create_topic_returned body st r st' :
  create_topic new_id body st = Ok (r, st') →
  (st' = st ∧ status r = 422)
  ∨ ∃ row, r = mkresp 201 (TopicJson new_id row)
           ∧ st' = mkdb (<[new_id := row]> (topics st)) (skills st)
           ∧ topics st !! new_id = None
           ∧ Topic.name row ≠ "" ∧ strip (Topic.name row) = Topic.name row
           ∧ ∀ k, Topic.parent_topic_id row = Some k → k ≠ "" → is_Some (topics st !! k).
Proof.
  unfold create_topic. intros H. binds.
  destruct (bool_decide (x0 = "")) eqn:Hname; [left; by simplify_eq|].
  binds.
  destruct (truthy x2 && bool_decide (x3 = None)) eqn:Hcheck; [left; by simplify_eq|].
  binds. unfold session_add in *.
  destruct (topics st !! new_id) eqn:Hfresh; [done|]. simplify_eq.
  right. eexists. repeat split; try done.
  - by apply bool_decide_eq_false in Hname.
  - eauto using str_strip_trimmed.
  - cbn. eauto using parent_checked.
Qed.

Lemma update_topic_returned id body st r st' :
  update_topic id body st = Ok (r, st') →
  (st' = st ∧ (status r = 404 ∨ status r = 422))
  ∨ ∃ row, r = mkresp 200 (TopicJson id row)
           ∧ st' = mkdb (<[id := row]> (topics st)) (skills st)
           ∧ is_Some (topics st !! id)
           ∧ strip (Topic.name row) = Topic.name row
           ∧ ∀ k, Topic.parent_topic_id row = Some k → k ≠ "" → is_Some (topics st !! k).
Proof.
  unfold update_topic. intros H.
  destruct (topics st !! id) as [old|] eqn:Hold; [|left; simplify_eq; auto].
  binds.
  destruct (truthy x2 && bool_decide (x3 = None)) eqn:Hcheck;
    [left; simplify_eq; auto|].
  binds. simplify_eq.
  right. eexists. repeat split; try done.
  - eauto using str_strip_trimmed.
  - cbn. eauto using parent_checked.
Qed.

Lemma delete_topic_returned id st r st' :
  delete_topic id st = Ok (r, st') →
  (st' = st ∧ (status r = 404 ∨ status r = 409))
  ∨ (r = mkresp 204 NoContent
     ∧ st' = mkdb (delete id (topics st)) (skills st)
     ∧ is_Some (topics st !! id)
     ∧ ¬ dependent_skill id st ∧ ¬ dependent_topic id st).
Proof.
  unfold delete_topic. intros H.
  destruct (topics st !! id) as [old|] eqn:Hold; [|left; simplify_eq; auto].
  destruct (has_skills id st) eqn:Hs; [left; simplify_eq; auto|].
  destruct (has_topics id st) eqn:Ht; [left; simplify_eq; auto|].
  simplify_eq. right. repeat split; try done.
  - by apply has_skills_false.
  - by apply has_topics_false.
Qed.

Lemma create_skill_returned body st r st' :
  create_skill new_id body st = Ok (r, st') →
  (st' = st ∧ status r = 422)
  ∨ ∃ row, r = mkresp 201 (SkillJson new_id row)
           ∧ st' = mkdb (topics st) (<[new_id := row]> (skills st))
           ∧ skills st !! new_id = None
           ∧ Skill.name row ≠ "" ∧ strip (Skill.name row) = Skill.name row
           ∧ strip (Skill.difficulty row) = Skill.difficulty row
           ∧ Skill.topic_id row ≠ "" ∧ is_Some (topics st !! Skill.topic_id row).
Proof.
  unfold create_skill. intros H. binds.
  destruct (bool_decide (x0 = "")) eqn:Hname; [left; by simplify_eq|].
  destruct (truthy x1) eqn:Htruthy; cbn [negb] in H; [|left; by simplify_eq].
  binds.
  destruct (bool_decide (x4 = None)) eqn:Hcheck; [left; by simplify_eq|].
  binds. unfold session_add in *.
  destruct (skills st !! new_id) eqn:Hfresh; [done|]. simplify_eq.
  match goal with
  | Hq : query_get _ ?v = Ok _, Hb : bind_text_required ?v = Ok _ |- _ =>
      destruct (topic_checked _ _ _ _ Hq Hcheck Hb) as [-> Htopic]
  end.
  right. eexists. repeat split; try done.
  - by apply bool_decide_eq_false in Hname.
  - eauto using str_strip_trimmed.
  - eauto using str_strip_trimmed.
  - cbn. intros ->. done.
Qed.

Lemma update_skill_returned id body st r st' :
  update_skill id body st = Ok (r, st') →
  (st' = st ∧ (status r = 404 ∨ status r = 422))
  ∨ ∃ row, r = mkresp 200 (SkillJson id row)
           ∧ st' = mkdb (topics st) (<[id := row]> (skills st))
           ∧ is_Some (skills st !! id)
           ∧ strip (Skill.name row) = Skill.name row
           ∧ strip (Skill.difficulty row) = Skill.difficulty row
           ∧ is_Some (topics st !! Skill.topic_id row).
Proof.
  unfold update_skill. intros H.
  destruct (skills st !! id) as [old|] eqn:Hold; [|left; simplify_eq; auto].
  binds.
  destruct (bool_decide (x4 = None)) eqn:Hcheck; [left; simplify_eq; auto|].
  binds. simplify_eq.
  match goal with
  | Hq : query_get _ ?v = Ok _, Hb : bind_text_required ?v = Ok _ |- _ =>
      destruct (topic_checked _ _ _ _ Hq Hcheck Hb) as [-> Htopic]
  end.
  right. eexists. repeat split; try done.
  - eauto using str_strip_trimmed.
  - eauto using str_strip_trimmed.
Qed.

Lemma delete_skill_returned id st r st' :
  delete_skill id st = Ok (r, st') →
  (st' = st ∧ status r = 404)
  ∨ (r = mkresp 204 NoContent
     ∧ st' = mkdb (topics st) (delete id (skills st))
     ∧ is_Some (skills st !! id)).
Proof.
  unfold delete_skill. intros H.
  destruct (skills st !! id) as [old|] eqn:Hold; simplify_eq; [right|left]; done.
Qed.

End Outcomes.


Lemma insert_keeps {A : Type} (m : gmap string A) (i k : string) (x : A) :
  is_Some (m !! k) → is_Some (<[i := x]> m !! k).
Proof. intros Hk. apply lookup_insert_is_Some. destruct (decide (i = k)); auto. Qed.

Lemma refs_ok_put_topic st id row :
  refs_ok st →
  (∀ k, Topic.parent_topic_id row = Some k → k ≠ "" → is_Some (topics st !! k)) →
  refs_ok (mkdb (<[id := row]> (topics st)) (skills st)).
Proof.
  intros [Hs Hp] Hrow. split.
  - intros sid skill Hsk. apply insert_keeps. by eapply Hs.
  - intros tid topic k Ht Hk Hne. cbn in *. apply insert_keeps.
    destruct (decide (id = tid)) as [->|Hid].
    + rewrite lookup_insert_eq in Ht. simplify_eq. by apply Hrow.
    + rewrite lookup_insert_ne in Ht by done. by eapply Hp.
Qed.

Lemma refs_ok_delete_topic st id :
  refs_ok st → ¬ dependent_skill id st → ¬ dependent_topic id st →
  refs_ok (mkdb (delete id (topics st)) (skills st)).
Proof.
  intros [Hs Hp] Hns Hnt. split.
  - intros sid skill Hsk. cbn in *. rewrite lookup_delete_ne; [by eapply Hs|].
    intros Heq. apply Hns. by exists sid, skill.
  - intros tid topic k Ht Hk Hne. cbn in *.
    apply lookup_delete_Some in Ht as [Hid Ht].
    rewrite lookup_delete_ne; [by eapply Hp|].
    intros Heq. apply Hnt. exists tid, topic. by rewrite Heq.
Qed.

Lemma refs_ok_put_skill st id row :
  refs_ok st → is_Some (topics st !! Skill.topic_id row) →
  refs_ok (mkdb (topics st) (<[id := row]> (skills st))).
Proof.
  intros [Hs Hp] Hrow. split; [|done].
  intros sid skill Hsk. cbn in *.
  destruct (decide (id = sid)) as [->|Hid].
  - rewrite lookup_insert_eq in Hsk. by simplify_eq.
  - rewrite lookup_insert_ne in Hsk by done. by eapply Hs.
Qed.

Lemma refs_ok_delete_skill st id :
  refs_ok st → refs_ok (mkdb (topics st) (delete id (skills st))).
Proof.
  intros [Hs Hp]. split; [|done].
  intros sid skill Hsk. cbn in *.
  apply lookup_delete_Some in Hsk as [_ Hsk]. by eapply Hs.
Qed.

Lemma serve_cases collate new_id req st r st' :
  serve collate new_id req st = (r, st') →
  (st' = st ∧ status r = 500) ∨ route collate new_id req st = Ok (r, st').
Proof.
  unfold serve. destruct (route collate new_id req st) as [out|e].
  - intros ->. by right.
  - intros [= <- <-]. by left.
Qed.

Section Invariants.
Context (collate : string → string → bool) (new_id : string).

(** X15. Every request whose [parentTopicID] or [topicID] is absent, null
    or a string keeps the references whole: if each Skill's topic and each
    Topic's non-empty parent is a stored Topic before the request, then so
    it is after it. *)
Theorem refs_ok_preserved (req : request) (st : db) (r : response) (st' : db) :
  ids_are_text req →
  serve collate new_id req st = (r, st') → refs_ok st → refs_ok st'.
Proof.
  intros _ [[-> _]|Hr]%serve_cases Hok; [done|].
  destruct req; cbn [route] in Hr.
  - unfold get_topics in Hr. by simplify_eq.
  - unfold get_topic_by_id in Hr. destruct (topics st !! id); by simplify_eq.
  - apply create_topic_returned in Hr as [[-> _]|(row & _ & -> & _ & _ & _ & Hp)]; [done|].
    by apply refs_ok_put_topic.
  - apply update_topic_returned in Hr as [[-> _]|(row & _ & -> & _ & _ & Hp)]; [done|].
    by apply refs_ok_put_topic.
  - apply delete_topic_returned in Hr as [[-> _]|(_ & -> & _ & Hs & Ht)]; [done|].
    by apply refs_ok_delete_topic.
  - unfold get_skills in Hr. by simplify_eq.
  - unfold get_skill_by_id in Hr. destruct (skills st !! id); by simplify_eq.
  - apply create_skill_returned in Hr
      as [[-> _]|(row & _ & -> & _ & _ & _ & _ & _ & Ht)]; [done|].
    by apply refs_ok_put_skill.
  - apply update_skill_returned in Hr as [[-> _]|(row & _ & -> & _ & _ & _ & Ht)]; [done|].
    by apply refs_ok_put_skill.
  - apply delete_skill_returned in Hr as [[-> _]|(_ & -> & _)]; [done|].
    by apply refs_ok_delete_skill.
Qed.

(** X16. Every request keeps stored names and difficulties free of
    surrounding whitespace. *)
Theorem trimmed_preserved (req : request) (st : db) (r : response) (st' : db) :
  serve collate new_id req st = (r, st') → trimmed st → trimmed st'.
Proof.
  intros [[-> _]|Hr]%serve_cases [Ht Hs]; [done|].
  assert (Hput_t : ∀ id row, strip (Topic.name row) = Topic.name row →
            trimmed (mkdb (<[id := row]> (topics st)) (skills st))).
  { intros id row Hrow. split; [|done]. intros tid topic. cbn.
    destruct (decide (id = tid)) as [->|Hid].
    - rewrite lookup_insert_eq. by intros [= <-].
    - rewrite lookup_insert_ne by done. apply Ht. }
  assert (Hput_s : ∀ id row, strip (Skill.name row) = Skill.name row →
            strip (Skill.difficulty row) = Skill.difficulty row →
            trimmed (mkdb (topics st) (<[id := row]> (skills st)))).
  { intros id row Hn Hd. split; [done|]. intros sid skill. cbn.
    destruct (decide (id = sid)) as [->|Hid].
    - rewrite lookup_insert_eq. by intros [= <-].
    - rewrite lookup_insert_ne by done. apply Hs. }
  destruct req; cbn [route] in Hr.
  - unfold get_topics in Hr. by simplify_eq.
  - unfold get_topic_by_id in Hr. destruct (topics st !! id); by simplify_eq.
  - apply create_topic_returned in Hr as [[-> _]|(row & _ & -> & _ & _ & Hn & _)]; [done|].
    by apply Hput_t.
  - apply update_topic_returned in Hr as [[-> _]|(row & _ & -> & _ & Hn & _)]; [done|].
    by apply Hput_t.
  - apply delete_topic_returned in Hr as [[-> _]|(_ & -> & _)]; [done|].
    split; [|done]. intros tid topic. cbn.
    intros [_ Hl]%lookup_delete_Some. by eapply Ht.
  - unfold get_skills in Hr. by simplify_eq.
  - unfold get_skill_by_id in Hr. destruct (skills st !! id); by simplify_eq.
  - apply create_skill_returned in Hr
      as [[-> _]|(row & _ & -> & _ & _ & Hn & Hd & _)]; [done|].
    by apply Hput_s.
  - apply update_skill_returned in Hr as [[-> _]|(row & _ & -> & _ & Hn & Hd & _)]; [done|].
    by apply Hput_s.
  - apply delete_skill_returned in Hr as [[-> _]|(_ & -> & _)]; [done|].
    split; [done|]. intros sid skill. cbn.
    intros [_ Hl]%lookup_delete_Some. by eapply Hs.
Qed.

End Invariants.


Lemma accepted_parent_check {B : Type} (st : db) (v : json) (par : option string)
    (refuse rest : res B) :
  accepted_parent st v par →
  (parent ← (if truthy v then query_get (topics st) v else Ok None);
   if truthy v && bool_decide (parent = None) then refuse else rest) = rest.
Proof.
  destruct v; try done; cbn.
  intros [-> Hk]. case_bool_decide as Hs; cbn; [done|].
  destruct Hk as [->|[topic ->]]; done.
Qed.

Lemma accepted_parent_bind (st : db) (v : json) (par : option string) :
  accepted_parent st v par → bind_text v = Ok par.
Proof. destruct v; try done; cbn; [by intros ->|by intros [-> _]]. Qed.

Lemma nullable_text_bind (o : option json) (prior : option string) :
  nullable_text o → bind_text (default (of_text prior) o) = Ok (column_or o prior).
Proof.
  destruct o as [v|]; cbn.
  - intros [->|[s ->]]; reflexivity.
  - intros _. by destruct prior.
Qed.

Lemma nullable_text_bind_null (o : option json) :
  nullable_text o → bind_text (default JNull o) = Ok (column_or o None).
Proof. apply (nullable_text_bind o None). Qed.

Section Stores.
Context (collate : string → string → bool) (new_id : string).

(** X1. POST /topics with a name that is not blank, a description that is
    absent, null or a string, and a parent that is absent, null, empty or
    the id of a stored Topic is answered 201.  The row holds the trimmed
    name, the description as sent (not trimmed) and the parent as sent, and
    a GET of the new id answers 200 with that row. *)
Theorem create_topic_stores (next_id : string) (body : option json)
    (p : gmap string json) (par : option string) (st : db) :
  get_payload body = JObj p →
  text_field (p !! "name") → strip (text_or (p !! "name") "") ≠ "" →
  nullable_text (p !! "description") →
  accepted_parent st (default JNull (p !! "parentTopicID")) par →
  topics st !! new_id = None →
  serve collate new_id (POST_topics body) st
  = topic_created new_id
      (Topic.mk (strip (text_or (p !! "name") "")) (column_or (p !! "description") None) par)
      st
  ∧ serve collate next_id (GET_topic new_id)
      (serve collate new_id (POST_topics body) st).2
    = (mkresp 200 (TopicJson new_id
         (Topic.mk (strip (text_or (p !! "name") "")) (column_or (p !! "description") None)
            par)),
       (serve collate new_id (POST_topics body) st).2).
Proof.
  intros Hp Hn Hne Hd Hpar Hfresh.
  assert (Hpost : serve collate new_id (POST_topics body) st
    = topic_created new_id
        (Topic.mk (strip (text_or (p !! "name") "")) (column_or (p !! "description") None) par)
        st).
  { unfold serve, route, create_topic. rewrite Hp. run.
    rewrite (str_strip_or _ _ Hn). run. rewrite bool_decide_eq_false_2 by done.
    rewrite (accepted_parent_check _ _ _ _ _ Hpar).
    rewrite (nullable_text_bind_null _ Hd), (accepted_parent_bind _ _ _ Hpar). run.
    unfold session_add. by rewrite Hfresh. }
  split; [done|]. rewrite Hpost.
  unfold serve, route, get_topic_by_id, topic_created. cbn.
  by rewrite lookup_insert_eq.
Qed.

End Stores.

Section Composition.
Context (collate : string → string → bool) (new_id : string).

(** X2. POST /skills checks in this order: a blank name is answered 422
    "Field 'name' is required." whatever [topicID] is; then an absent or
    falsy [topicID] is answered 422 "Field 'topicID' is required."; then a
    [topicID] that is the id of no Topic is answered 422 "topicID not
    found".  The stored state is kept each time. *)
Theorem create_skill_validation (body : option json) (p : gmap string json) (st : db) :
  get_payload body = JObj p →
  text_field (p !! "name") → text_field (p !! "difficulty") →
  (strip (text_or (p !! "name") "") = "" →
     serve collate new_id (POST_skills body) st
     = (error 422 "Field 'name' is required.", st))
  ∧ (strip (text_or (p !! "name") "") ≠ "" →
     (p !! "topicID" = None ∨ ∃ v, p !! "topicID" = Some v ∧ truthy v = false) →
     serve collate new_id (POST_skills body) st
     = (error 422 "Field 'topicID' is required.", st))
  ∧ (∀ t, strip (text_or (p !! "name") "") ≠ "" →
       p !! "topicID" = Some (JStr t) → t ≠ "" → topics st !! t = None →
       serve collate new_id (POST_skills body) st
       = (error 422 "topicID not found", st)).
Proof.
  intros Hp Hn Hd. unfold serve, route, create_skill. rewrite Hp. run.
  rewrite (str_strip_or _ _ Hn), (str_strip_or _ _ Hd). run.
  split; [|split].
  - intros ->. done.
  - intros Hne Ht. rewrite bool_decide_eq_false_2 by done.
    destruct Ht as [->|(v & -> & Hv)]; cbn; [done|]. by rewrite Hv.
  - intros t Hne Ht Ht0 Hnone. rewrite bool_decide_eq_false_2 by done.
    rewrite Ht. run. rewrite (truthy_str _ Ht0). run. by rewrite Hnone.
Qed.

(** X3. Whenever POST /topics or POST /skills is answered 201, the id was
    not in use before and a GET of that id on the resulting state answers
    200 with the very row the POST returned. *)
Theorem post_then_get (next_id : string) (body : option json) (st : db)
    (r : response) (st' : db) :
  status r = 201 →
  (serve collate new_id (POST_topics body) st = (r, st') →
     ∃ row, r = mkresp 201 (TopicJson new_id row)
            ∧ topics st !! new_id = None
            ∧ serve collate next_id (GET_topic new_id) st'
              = (mkresp 200 (TopicJson new_id row), st'))
  ∧ (serve collate new_id (POST_skills body) st = (r, st') →
       ∃ row, r = mkresp 201 (SkillJson new_id row)
              ∧ skills st !! new_id = None
              ∧ serve collate next_id (GET_skill new_id) st'
                = (mkresp 200 (SkillJson new_id row), st')).
Proof.
  intros Hst. split.
  - intros [[_ H5]|Hr]%serve_cases; [congruence|]. cbn [route] in Hr.
    apply create_topic_returned in Hr as [[_ H4]|(row & -> & -> & Hf & _)]; [congruence|].
    exists row. repeat split; [done|].
    unfold serve, route, get_topic_by_id. cbn. by rewrite lookup_insert_eq.
  - intros [[_ H5]|Hr]%serve_cases; [congruence|]. cbn [route] in Hr.
    apply create_skill_returned in Hr as [[_ H4]|(row & -> & -> & Hf & _)]; [congruence|].
    exists row. repeat split; [done|].
    unfold serve, route, get_skill_by_id. cbn. by rewrite lookup_insert_eq.
Qed.

(** X9. DELETE /skills/<id> is answered 404 when the id is absent; otherwise
    the row is removed without any dependency check and the answer is 204,
    after which a GET and a second DELETE of that id are answered 404. *)
Theorem delete_skill_cases (next_id : string) (id : string) (st : db) :
  (skills st !! id = None →
     serve collate new_id (DELETE_skill id) st = (error 404 "Skill not found", st))
  ∧ (is_Some (skills st !! id) →
     serve collate new_id (DELETE_skill id) st
     = (mkresp 204 NoContent, mkdb (topics st) (delete id (skills st)))
     ∧ serve collate next_id (GET_skill id) (mkdb (topics st) (delete id (skills st)))
       = (error 404 "Skill not found", mkdb (topics st) (delete id (skills st)))
     ∧ serve collate next_id (DELETE_skill id) (mkdb (topics st) (delete id (skills st)))
       = (error 404 "Skill not found", mkdb (topics st) (delete id (skills st)))).
Proof.
  unfold serve, route, delete_skill, get_skill_by_id. split.
  - by intros ->.
  - intros [skill ->]. cbn. by rewrite lookup_delete_eq.
Qed.

(** X10. When a Topic has no child Topic and its only Skill is [sid],
    deleting that Skill and then the Topic is answered 204 twice and both
    rows are gone. *)
Theorem delete_skill_unblocks_topic (next_id : string) (sid t : string) (st : db) :
  is_Some (topics st !! t) → is_Some (skills st !! sid) →
  (∀ sid' skill, skills st !! sid' = Some skill → Skill.topic_id skill = t → sid' = sid) →
  ¬ dependent_topic t st →
  ∃ st1, serve collate new_id (DELETE_skill sid) st = (mkresp 204 NoContent, st1)
         ∧ serve collate next_id (DELETE_topic t) st1
           = (mkresp 204 NoContent, mkdb (delete t (topics st)) (delete sid (skills st))).
Proof.
  intros [topic Ht] [skill Hs] Honly Hnt. eexists. split.
  - unfold serve, route, delete_skill. rewrite Hs. reflexivity.
  - unfold serve, route, delete_topic. cbn [topics]. rewrite Ht.
    assert (has_skills t (mkdb (topics st) (delete sid (skills st))) = false) as ->.
    { apply has_skills_false. intros (sid' & skill' & Hl & Heq). cbn in Hl.
      apply lookup_delete_Some in Hl as [Hne Hl]. apply Hne. symmetry. eauto. }
    assert (has_topics t (mkdb (topics st) (delete sid (skills st))) = false) as ->.
    { apply has_topics_false. intros (tid & topic' & Hl & Heq). apply Hnt.
      by exists tid, topic'. }
    reflexivity.
Qed.

(** X11. Right after a POST /skills that names its Topic by a string and is
    answered 201, deleting that Topic is answered 409 with the skill message
    and nothing is removed. *)
Theorem create_skill_blocks_topic_delete (next_id : string) (body : option json)
    (p : gmap string json) (t : string) (st : db) (r : response) (st' : db) :
  get_payload body = JObj p → p !! "topicID" = Some (JStr t) →
  serve collate new_id (POST_skills body) st = (r, st') → status r = 201 →
  ∃ row, r = mkresp 201 (SkillJson new_id row)
         ∧ Skill.topic_id row = t
         ∧ serve collate next_id (DELETE_topic t) st'
           = (error 409 "The topic has dependent skills, cannot delete the topic", st').
Proof.
  intros Hp Hid [[_ H5]|Hr]%serve_cases Hst; [congruence|]. cbn [route] in Hr.
  pose proof Hr as Hrow. apply create_skill_returned in Hrow
    as [[_ H4]|(row & -> & -> & Hf & _ & _ & _ & _ & [topic Ht])]; [congruence|].
  assert (Skill.topic_id row = t) as Heq.
  { unfold create_skill in Hr. rewrite Hp in Hr. cbn [dict_get] in Hr.
    rewrite Hid in Hr. returned.
    match goal with
    | H : bind_text_required (JStr t) = Ok _ |- _ => injection H as <-
    end. reflexivity. }
  exists row. split; [done|]. split; [done|]. subst t.
  unfold serve, route, delete_topic. cbn [topics]. rewrite Ht.
  assert (has_skills (Skill.topic_id row)
            (mkdb (topics st) (<[new_id := row]> (skills st))) = true) as ->; [|done].
  apply has_skills_true. exists new_id, row. split; [|done].
  cbn. apply lookup_insert_eq.
Qed.

(** X14. No cascade: a request under /topics never changes the Skills
    table, and a request under /skills never changes the Topics table. *)
Theorem other_table_untouched (req : request) (st : db) (r : response) (st' : db) :
  serve collate new_id req st = (r, st') →
  if topic_route req then skills st' = skills st else topics st' = topics st.
Proof.
  intros [[-> _]|Hr]%serve_cases; [by destruct (topic_route req)|].
  destruct req; cbn [route topic_route] in *.
  - unfold get_topics in Hr. by simplify_eq.
  - unfold get_topic_by_id in Hr. destruct (topics st !! id); by simplify_eq.
  - by apply create_topic_returned in Hr as [[-> _]|(row & _ & -> & _)].
  - by apply update_topic_returned in Hr as [[-> _]|(row & _ & -> & _)].
  - by apply delete_topic_returned in Hr as [[-> _]|(_ & -> & _)].
  - unfold get_skills in Hr. by simplify_eq.
  - unfold get_skill_by_id in Hr. destruct (skills st !! id); by simplify_eq.
  - by apply create_skill_returned in Hr as [[-> _]|(row & _ & -> & _)].
  - by apply update_skill_returned in Hr as [[-> _]|(row & _ & -> & _)].
  - by apply delete_skill_returned in Hr as [[-> _]|(_ & -> & _)].
Qed.

(** X8. Whatever the body, a PUT changes no row other than the one it
    addresses, and neither creates nor removes the addressed id. *)
Theorem put_touches_one_row (id : string) (body : option json) (st : db)
    (r : response) (st' : db) :
  (serve collate new_id (PUT_topic id body) st = (r, st') →
     (∀ k, k ≠ id → topics st' !! k = topics st !! k)
     ∧ (is_Some (topics st' !! id) ↔ is_Some (topics st !! id)))
  ∧ (serve collate new_id (PUT_skill id body) st = (r, st') →
       (∀ k, k ≠ id → skills st' !! k = skills st !! k)
       ∧ (is_Some (skills st' !! id) ↔ is_Some (skills st !! id))).
Proof.
  split.
  - intros [[-> _]|Hr]%serve_cases; [done|]. cbn [route] in Hr.
    apply update_topic_returned in Hr as [[-> _]|(row & _ & -> & Hid & _)]; [done|].
    cbn. split.
    + intros k Hk. by rewrite lookup_insert_ne.
    + rewrite lookup_insert_eq. split; eauto.
  - intros [[-> _]|Hr]%serve_cases; [done|]. cbn [route] in Hr.
    apply update_skill_returned in Hr as [[-> _]|(row & _ & -> & Hid & _)]; [done|].
    cbn. split.
    + intros k Hk. by rewrite lookup_insert_ne.
    + rewrite lookup_insert_eq. split; eauto.
Qed.

End Composition.


(** The run of a PUT that passes every check, for the proofs below. *)
Lemma update_topic_run collate new_id id body p old par st :
  topics st !! id = Some old →
  get_payload body = JObj p →
  text_field (p !! "name") → nullable_text (p !! "description") →
  accepted_parent st
    (default (of_text (Topic.parent_topic_id old)) (p !! "parentTopicID")) par →
  serve collate new_id (PUT_topic id body) st
  = topic_updated id
      (Topic.mk (strip (text_or (p !! "name") (Topic.name old)))
                (column_or (p !! "description") (Topic.description old)) par)
      st.
Proof.
  intros Hold Hp Hn Hd Hpar.
  unfold serve, route, update_topic. rewrite Hold, Hp. run.
  rewrite (str_strip_or _ _ Hn). run.
  rewrite (accepted_parent_check _ _ _ _ _ Hpar).
  by rewrite (nullable_text_bind _ _ Hd), (accepted_parent_bind _ _ _ Hpar).
Qed.

Lemma update_skill_run collate new_id id body p old t st :
  skills st !! id = Some old →
  get_payload body = JObj p →
  text_field (p !! "name") → text_field (p !! "difficulty") →
  topic_id_resolves p old t → is_Some (topics st !! t) →
  serve collate new_id (PUT_skill id body) st
  = skill_updated id (skill_after p old t) st.
Proof.
  intros Hold Hp Hn Hd Ht [topic Htopic].
  assert (Hv : default (JStr (Skill.topic_id old)) (p !! "topicID") = JStr t).
  { destruct Ht as [[-> ->]| ->]; reflexivity. }
  unfold serve, route, update_skill. rewrite Hold, Hp. run.
  rewrite (str_strip_or _ _ Hn), (str_strip_or _ _ Hd), Hv. run.
  by rewrite Htopic.
Qed.

Lemma insert_same_db (st : db) :
  (∀ id row, topics st !! id = Some row →
     mkdb (<[id := row]> (topics st)) (skills st) = st)
  ∧ (∀ id row, skills st !! id = Some row →
       mkdb (topics st) (<[id := row]> (skills st)) = st).
Proof. destruct st as [ts ss]. split; intros id row H; cbn in *; by rewrite insert_id. Qed.

Section Edges.
Context (collate : string → string → bool) (new_id : string).

(** X13. A JSON body that is truthy but not an object makes [payload.get]
    fail: POST /topics and POST /skills are answered 500, and so is a PUT on
    an existing id, while a PUT on an absent id is still answered 404.
    Nothing is written. *)
Theorem body_not_a_dict (v : json) (id : string) (st : db) :
  not_a_dict v →
  serve collate new_id (POST_topics (Some v)) st = (mkresp 500 (Unhandled AttributeError), st)
  ∧ serve collate new_id (POST_skills (Some v)) st
    = (mkresp 500 (Unhandled AttributeError), st)
  ∧ serve collate new_id (PUT_topic id (Some v)) st
    = (match topics st !! id with
       | Some _ => mkresp 500 (Unhandled AttributeError)
       | None => error 404 "Topic not found"
       end, st)
  ∧ serve collate new_id (PUT_skill id (Some v)) st
    = (match skills st !! id with
       | Some _ => mkresp 500 (Unhandled AttributeError)
       | None => error 404 "Skill not found"
       end, st).
Proof.
  intros [Hv Hobj].
  assert (Hp : get_payload (Some v) = v). { unfold get_payload, py_or. by rewrite Hv. }
  assert (Hget : ∀ k d, dict_get v k d = Raise AttributeError).
  { intros k d. destruct v; try done. by destruct (Hobj m). }
  unfold serve, route, create_topic, create_skill, update_topic, update_skill.
  rewrite Hp. repeat split.
  - rewrite (Hget "name"). reflexivity.
  - rewrite (Hget "name"). reflexivity.
  - destruct (topics st !! id); [rewrite (Hget "name")|]; reflexivity.
  - destruct (skills st !! id); [rewrite (Hget "name")|]; reflexivity.
Qed.

(** X5. PUT /topics/<id> is answered 422 "parentTopicID not found", and
    keeps the state, when the parent it resolves to (the sent string, or
    the stored parent when the key is absent) is a non-empty id of no
    Topic. *)
Theorem update_topic_parent_missing (id : string) (body : option json)
    (p : gmap string json) (old : Topic.t) (k : string) (st : db) :
  topics st !! id = Some old →
  get_payload body = JObj p → text_field (p !! "name") →
  parent_resolves p old k → k ≠ "" → topics st !! k = None →
  serve collate new_id (PUT_topic id body) st = (error 422 "parentTopicID not found", st).
Proof.
  intros Hold Hp Hn Hres Hk Hnone.
  assert (Hv : default (of_text (Topic.parent_topic_id old)) (p !! "parentTopicID") = JStr k).
  { destruct Hres as [[-> ->]| ->]; reflexivity. }
  unfold serve, route, update_topic. rewrite Hold, Hp. run.
  rewrite (str_strip_or _ _ Hn), Hv. run. rewrite (truthy_str _ Hk). run.
  by rewrite Hnone.
Qed.

(** X4. PUT /topics/<id> on an existing Topic, with a parent that resolves
    to null, the empty string or the id of a stored Topic, is answered 200.
    The row keeps its id; its name is the trimmed sent name, or the
    trimmed stored one when none is sent; its description is the sent one
    (null clears it), the stored one when the key is absent. *)
Theorem update_topic_stores (id : string) (body : option json)
    (p : gmap string json) (old : Topic.t) (par : option string) (st : db) :
  topics st !! id = Some old →
  get_payload body = JObj p →
  text_field (p !! "name") → nullable_text (p !! "description") →
  accepted_parent st
    (default (of_text (Topic.parent_topic_id old)) (p !! "parentTopicID")) par →
  serve collate new_id (PUT_topic id body) st
  = topic_updated id
      (Topic.mk (strip (text_or (p !! "name") (Topic.name old)))
                (column_or (p !! "description") (Topic.description old)) par)
      st.
Proof.
  intros Hold Hp Hn Hd Hpar.
  unfold serve, route, update_topic. rewrite Hold, Hp. run.
  rewrite (str_strip_or _ _ Hn). run.
  rewrite (accepted_parent_check _ _ _ _ _ Hpar).
  by rewrite (nullable_text_bind _ _ Hd), (accepted_parent_bind _ _ _ Hpar).
Qed.

(** X6. The PUT handlers have no check on the name: a whitespace-only name
    is accepted and the row is stored with the empty name, for a Topic and
    for a Skill, while a POST with that name is answered 422 "Field 'name'
    is required." and stores nothing. *)
Theorem update_takes_blank_name (id : string) (body : option json)
    (p : gmap string json) (s : string) (st : db) :
  get_payload body = JObj p →
  p !! "name" = Some (JStr s) → s ≠ "" → strip s = "" →
  (∀ old par, topics st !! id = Some old → nullable_text (p !! "description") →
     accepted_parent st
       (default (of_text (Topic.parent_topic_id old)) (p !! "parentTopicID")) par →
     serve collate new_id (PUT_topic id body) st
     = topic_updated id
         (Topic.mk "" (column_or (p !! "description") (Topic.description old)) par) st)
  ∧ (∀ old t, skills st !! id = Some old → text_field (p !! "difficulty") →
       topic_id_resolves p old t → is_Some (topics st !! t) →
       serve collate new_id (PUT_skill id body) st
       = skill_updated id
           (Skill.mk "" t (strip (text_or (p !! "difficulty") (Skill.difficulty old)))) st)
  ∧ serve collate new_id (POST_topics body) st
    = (error 422 "Field 'name' is required.", st)
  ∧ (text_field (p !! "difficulty") →
     serve collate new_id (POST_skills body) st
     = (error 422 "Field 'name' is required.", st)).
Proof.
  intros Hp Hname Hs Hblank.
  assert (Hn : text_field (p !! "name")). { rewrite Hname. right. eauto. }
  assert (Hstored : ∀ d, strip (text_or (p !! "name") d) = "").
  { intros d. rewrite Hname. cbn. by rewrite decide_False. }
  split; [|split; [|split]].
  - intros old par Hold Hd Hpar.
    rewrite (update_topic_run _ _ _ _ _ _ _ _ Hold Hp Hn Hd Hpar). by rewrite Hstored.
  - intros old t Hold Hd Ht Htopic.
    rewrite (update_skill_run _ _ _ _ _ _ _ _ Hold Hp Hn Hd Ht Htopic).
    unfold skill_after. by rewrite Hstored.
  - unfold serve, route, create_topic. rewrite Hp. run.
    rewrite (str_strip_or _ _ Hn), Hstored. reflexivity.
  - intros Hd. unfold serve, route, create_skill. rewrite Hp. run.
    rewrite (str_strip_or _ _ Hn), (str_strip_or _ _ Hd), Hstored. reflexivity.
Qed.

(** X12. No cycle check: a PUT that names the Topic itself as its parent is
    answered 200 and stored, and from then on deleting that Topic is
    answered 409. *)
Theorem self_parent_blocks_delete (next_id : string) (id : string) (body : option json)
    (p : gmap string json) (old : Topic.t) (st : db) :
  topics st !! id = Some old →
  get_payload body = JObj p →
  text_field (p !! "name") → nullable_text (p !! "description") →
  p !! "parentTopicID" = Some (JStr id) →
  ∃ row st', serve collate new_id (PUT_topic id body) st = (mkresp 200 (TopicJson id row), st')
    ∧ Topic.parent_topic_id row = Some id
    ∧ ∃ msg, serve collate next_id (DELETE_topic id) st' = (error 409 msg, st').
Proof.
  intros Hold Hp Hn Hd Hpar.
  eexists _, _. split; [|split].
  - apply (update_topic_run _ _ _ _ _ _ (Some id) _ Hold Hp Hn Hd).
    rewrite Hpar. cbn. split; [done|]. right. by rewrite Hold.
  - done.
  - unfold serve, route, delete_topic. cbn [topics]. rewrite lookup_insert_eq.
    match goal with |- context [has_topics id ?s] =>
      assert (has_topics id s = true) as -> end.
    { apply has_topics_true. eexists id, _. split; [apply lookup_insert_eq|done]. }
    match goal with |- context [has_skills id ?s] => destruct (has_skills id s) end;
      eexists; reflexivity.
Qed.

End Edges.

Lemma restrip (n : json) (a x : string) :
  str_strip (py_or n (JStr a)) = Ok x → str_strip (py_or n (JStr x)) = Ok x.
Proof.
  unfold py_or. destruct (truthy n); [done|]. cbn. intros [= <-].
  by rewrite strip_idemp.
Qed.

Lemma dict_get_again (payload : json) (k : string) (o d : option string) (v : json) :
  dict_get payload k (of_text o) = Ok v → bind_text v = Ok d →
  dict_get payload k (of_text d) = Ok v.
Proof.
  destruct payload as [| | | | |m]; try discriminate. cbn.
  destruct (m !! k) as [w|]; cbn; [done|].
  intros [= <-]. destruct o; cbn; by intros [= <-].
Qed.

Lemma dict_get_again_required (payload : json) (k : string) (a t : string) (v : json) :
  dict_get payload k (JStr a) = Ok v → bind_text_required v = Ok t →
  dict_get payload k (JStr t) = Ok v.
Proof.
  destruct payload as [| | | | |m]; try discriminate. cbn.
  destruct (m !! k) as [w|]; cbn; [done|].
  intros [= <-]. cbn. by intros [= <-].
Qed.

Lemma parent_check_again {A B : Type} (tbl : gmap string A) (id : string) (row : A)
    (v : json) (parent : option A) (par : option string) (refuse rest : res B) :
  (if truthy v then query_get tbl v else Ok None) = Ok parent →
  truthy v && bool_decide (parent = None) = false →
  bind_text v = Ok par →
  (parent' ← (if truthy v then query_get (<[id := row]> tbl) v else Ok None);
   if truthy v && bool_decide (parent' = None) then refuse else rest) = rest.
Proof.
  intros Hq Hc Hb. destruct v; try discriminate Hb; cbn in *; [done|].
  case_bool_decide as Hs; cbn in *; [done|]. injection Hq as <-.
  apply bool_decide_eq_false in Hc.
  destruct (insert_keeps tbl id s row) as [x ->]; [by destruct (tbl !! s)|done].
Qed.

Section Repeating.
Context (collate : string → string → bool) (new_id : string).

(** X7. A PUT answered 200 can be sent again: on the state it produced, the
    same request gets the same answer and leaves that state as it is. *)
Theorem put_is_idempotent (id : string) (body : option json) (st : db)
    (r : response) (st1 : db) :
  status r = 200 →
  (serve collate new_id (PUT_topic id body) st = (r, st1) →
     serve collate new_id (PUT_topic id body) st1 = (r, st1))
  ∧ (serve collate new_id (PUT_skill id body) st = (r, st1) →
       serve collate new_id (PUT_skill id body) st1 = (r, st1)).
Proof.
  intros Hst. split.
  - intros [[_ H5]|Hr]%serve_cases; [congruence|]. cbn [route] in Hr.
    unfold update_topic in Hr.
    destruct (topics st !! id) as [old|] eqn:Hold; [|by simplify_eq].
    binds.
    destruct (truthy x2 && bool_decide (x3 = None)) eqn:Hcheck; [by simplify_eq|].
    binds. simplify_eq.
    unfold serve, route, update_topic. cbn [topics skills].
    rewrite lookup_insert_eq.
    cbn [Topic.name Topic.description Topic.parent_topic_id].
    match goal with
    | Hn : dict_get _ "name" _ = Ok _, Hs : str_strip _ = Ok _,
      Hd : dict_get _ "description" _ = Ok ?dv, Hp : dict_get _ "parentTopicID" _ = Ok ?pv,
      Hq : (if _ then _ else _) = Ok _,
      Hbd : bind_text ?dv = Ok _, Hbp : bind_text ?pv = Ok _ |- _ =>
        rewrite Hn; cbn [mbind res_bind];
        rewrite (restrip _ _ _ Hs); cbn [mbind res_bind];
        rewrite (dict_get_again _ _ _ _ _ Hd Hbd); cbn [mbind res_bind];
        rewrite (dict_get_again _ _ _ _ _ Hp Hbp); cbn [mbind res_bind];
        rewrite (parent_check_again _ _ _ _ _ _ _ _ Hq Hcheck Hbp);
        rewrite Hbd, Hbp; cbn [mbind res_bind]
    end.
    by rewrite insert_insert_eq.
  - intros [[_ H5]|Hr]%serve_cases; [congruence|]. cbn [route] in Hr.
    unfold update_skill in Hr.
    destruct (skills st !! id) as [old|] eqn:Hold; [|by simplify_eq].
    binds.
    destruct (bool_decide (x4 = None)) eqn:Hcheck; [by simplify_eq|].
    binds. simplify_eq.
    unfold serve, route, update_skill. cbn [topics skills].
    rewrite lookup_insert_eq.
    cbn [Skill.name Skill.topic_id Skill.difficulty].
    match goal with
    | Hn : dict_get _ "name" _ = Ok _, Hs : str_strip (py_or _ (JStr (Skill.name _))) = Ok _,
      Ht : dict_get _ "topicID" _ = Ok ?tv, Hd : dict_get _ "difficulty" _ = Ok _,
      Hsd : str_strip (py_or _ (JStr (Skill.difficulty _))) = Ok _,
      Hq : query_get _ ?tv = Ok _, Hbt : bind_text_required ?tv = Ok _ |- _ =>
        rewrite Hn; cbn [mbind res_bind];
        rewrite (restrip _ _ _ Hs); cbn [mbind res_bind];
        rewrite (dict_get_again_required _ _ _ _ _ Ht Hbt); cbn [mbind res_bind];
        rewrite Hd; cbn [mbind res_bind];
        rewrite (restrip _ _ _ Hsd); cbn [mbind res_bind];
        rewrite Hq; cbn [mbind res_bind]; rewrite Hcheck, Hbt; cbn [mbind res_bind]
    end.
    by rewrite insert_insert_eq.
Qed.

(** X17. On a state whose references are whole and whose strings are
    trimmed, a PUT with an empty payload is answered 200 with the stored
    row and changes nothing, for a Topic and for a Skill. *)
Theorem empty_put_changes_nothing (id : string) (body : option json) (st : db) :
  get_payload body = JObj ∅ → refs_ok st → trimmed st →
  (∀ old, topics st !! id = Some old →
     serve collate new_id (PUT_topic id body) st = (mkresp 200 (TopicJson id old), st))
  ∧ (∀ old, skills st !! id = Some old →
       serve collate new_id (PUT_skill id body) st = (mkresp 200 (SkillJson id old), st)).
Proof.
  intros Hp [Hsr Hpr] [Htt Hts]. split.
  - intros old Hold.
    rewrite (update_topic_run _ _ _ _ _ _ (Topic.parent_topic_id old) _ Hold Hp); try done.
    + rewrite !lookup_empty. cbn [text_or column_or].
      rewrite (Htt _ _ Hold). unfold topic_updated.
      destruct old as [n d par]. cbn. by rewrite (proj1 (insert_same_db st) _ _ Hold).
    + rewrite lookup_empty. cbn [default from_option].
      destruct (Topic.parent_topic_id old) as [k|] eqn:Hk; cbn; [|done].
      split; [done|]. destruct (decide (k = "")); [by left|right]. by eapply Hpr.
  - intros old Hold. destruct (Hts _ _ Hold) as [Hn Hd].
    rewrite (update_skill_run _ _ _ _ _ _ (Skill.topic_id old) _ Hold Hp); try done.
    + unfold skill_after, skill_updated. rewrite !lookup_empty. cbn [text_or].
      rewrite Hn, Hd.
      destruct old as [n t d]. cbn. by rewrite (proj2 (insert_same_db st) _ _ Hold).
    + by left.
    + by eapply Hsr.
Qed.

End Repeating.


(** ** The handlers run on the sample states *)

Lemma refs_ok_db0 : refs_ok db0.
Proof.
  split.
  - apply map_Forall_insert_2; [vm_compute; eauto|apply map_Forall_empty].
  - intros tid topic k. revert tid topic.
    apply (map_Forall_insert_2 (λ _ topic, Topic.parent_topic_id topic = Some k →
             k ≠ "" → is_Some (topics db0 !! k))); [discriminate|].
    apply map_Forall_insert_2; [|apply map_Forall_empty].
    intros [= <-] _. vm_compute. eauto.
Qed.

Lemma trimmed_db0 : trimmed db0.
Proof.
  split.
  - apply map_Forall_insert_2; [reflexivity|].
    apply map_Forall_insert_2; [reflexivity|apply map_Forall_empty].
  - apply map_Forall_insert_2; [split; reflexivity|apply map_Forall_empty].
Qed.

Lemma create_topic_stores_witness :
  serve String.leb "t3" (POST_topics tree_topic) db0
  = topic_created "t3" (Topic.mk "Trees" (Some " about trees ") (Some "t1")) db0
  ∧ serve String.leb "n" (GET_topic "t3")
      (serve String.leb "t3" (POST_topics tree_topic) db0).2
    = (mkresp 200 (TopicJson "t3" (Topic.mk "Trees" (Some " about trees ") (Some "t1"))),
       (serve String.leb "t3" (POST_topics tree_topic) db0).2).
Proof.
  refine (create_topic_stores String.leb "t3" "n" tree_topic
           (list_to_map [("name", JStr " Trees "); ("description", JStr " about trees ");
                         ("parentTopicID", JStr "t1")]) (Some "t1") db0 _ _ _ _ _ _).
  - reflexivity.
  - right. eexists. reflexivity.
  - vm_compute. discriminate.
  - right. eexists. reflexivity.
  - split; [reflexivity|]. right. vm_compute. eauto.
  - reflexivity.
Defined.

Lemma create_skill_validation_witness :
  serve String.leb "s2" (POST_skills nameless_skill) db0
  = (error 422 "Field 'name' is required.", db0)
  ∧ serve String.leb "s2" (POST_skills topicless_skill) db0
    = (error 422 "Field 'topicID' is required.", db0)
  ∧ serve String.leb "s2" (POST_skills misplaced_skill) db0
    = (error 422 "topicID not found", db0).
Proof.
  split; [|split].
  - refine (proj1 (create_skill_validation String.leb "s2" nameless_skill
              (list_to_map [("topicID", JStr "t1")]) db0 _ _ _) _);
      [reflexivity|exact I|exact I|reflexivity].
  - refine (proj1 (proj2 (create_skill_validation String.leb "s2" topicless_skill
              (list_to_map [("name", JStr "Merging")]) db0 _ _ _)) _ _).
    + reflexivity.
    + right. eexists. reflexivity.
    + exact I.
    + vm_compute. discriminate.
    + left. reflexivity.
  - refine (proj2 (proj2 (create_skill_validation String.leb "s2" misplaced_skill
              (list_to_map [("name", JStr "Merging"); ("topicID", JStr "t9")]) db0 _ _ _))
              "t9" _ _ _ _).
    + reflexivity.
    + right. eexists. reflexivity.
    + exact I.
    + vm_compute. discriminate.
    + reflexivity.
    + discriminate.
    + reflexivity.
Defined.

Lemma post_then_get_witness :
  ∃ row, (serve String.leb "s2" (POST_skills graph_skill) db0).1
         = mkresp 201 (SkillJson "s2" row)
         ∧ skills db0 !! "s2" = None
         ∧ serve String.leb "n" (GET_skill "s2")
             (serve String.leb "s2" (POST_skills graph_skill) db0).2
           = (mkresp 200 (SkillJson "s2" row),
              (serve String.leb "s2" (POST_skills graph_skill) db0).2).
Proof.
  refine (proj2 (post_then_get String.leb "s2" "n" graph_skill db0
            (serve String.leb "s2" (POST_skills graph_skill) db0).1
            (serve String.leb "s2" (POST_skills graph_skill) db0).2 _) _).
  - reflexivity.
  - vm_compute. reflexivity.
Defined.

Lemma update_topic_stores_witness :
  serve String.leb "n" (PUT_topic "t2" rename_topic) db0
  = topic_updated "t2" (Topic.mk "Graph theory" None (Some "t1")) db0.
Proof.
  refine (update_topic_stores String.leb "n" "t2" rename_topic
           (list_to_map [("name", JStr " Graph theory "); ("description", JNull)])
           graphs (Some "t1") db0 _ _ _ _ _).
  - reflexivity.
  - reflexivity.
  - right. eexists. reflexivity.
  - left. reflexivity.
  - split; [reflexivity|]. right. vm_compute. eauto.
Defined.

Lemma update_topic_parent_missing_witness :
  serve String.leb "n" (PUT_topic "t1" reparent_topic) db0
  = (error 422 "parentTopicID not found", db0).
Proof.
  apply (update_topic_parent_missing String.leb "n" "t1" reparent_topic
           (list_to_map [("parentTopicID", JStr "t9")]) algorithms "t9" db0).
  - reflexivity.
  - reflexivity.
  - exact I.
  - right. reflexivity.
  - discriminate.
  - reflexivity.
Defined.

Lemma update_takes_blank_name_witness :
  serve String.leb "n" (PUT_topic "t1" blank_topic) db0
  = topic_updated "t1" (Topic.mk "" None None) db0
  ∧ serve String.leb "n" (PUT_skill "s1" blank_topic) db0
    = skill_updated "s1" (Skill.mk "" "t1" "unknown") db0
  ∧ serve String.leb "n" (POST_topics blank_topic) db0
    = (error 422 "Field 'name' is required.", db0)
  ∧ serve String.leb "n" (POST_skills blank_topic) db0
    = (error 422 "Field 'name' is required.", db0).
Proof.
  destruct (update_takes_blank_name String.leb "n" "t1" blank_topic
              (list_to_map [("name", JStr "  ")]) "  " db0) as (HT & _ & HPT & HPS);
    [reflexivity|reflexivity|discriminate|reflexivity|].
  destruct (update_takes_blank_name String.leb "n" "s1" blank_topic
              (list_to_map [("name", JStr "  ")]) "  " db0) as (_ & HS & _);
    [reflexivity|reflexivity|discriminate|reflexivity|].
  split; [|split; [|split]].
  - apply (HT algorithms None); [reflexivity|exact I|reflexivity].
  - rewrite (HS sorting_skill "t1" eq_refl I (or_introl (conj eq_refl eq_refl)));
      [vm_compute; reflexivity|vm_compute; eauto].
  - exact HPT.
  - apply HPS. exact I.
Defined.

Lemma put_is_idempotent_witness :
  serve String.leb "n" (PUT_topic "t2" rename_topic)
    (serve String.leb "n" (PUT_topic "t2" rename_topic) db0).2
  = serve String.leb "n" (PUT_topic "t2" rename_topic) db0.
Proof.
  refine (proj1 (put_is_idempotent String.leb "n" "t2" rename_topic db0
            (serve String.leb "n" (PUT_topic "t2" rename_topic) db0).1
            (serve String.leb "n" (PUT_topic "t2" rename_topic) db0).2 _) _).
  - reflexivity.
  - vm_compute. reflexivity.
Defined.

Lemma put_touches_one_row_witness :
  (∀ k, k ≠ "t2" →
     topics (serve String.leb "n" (PUT_topic "t2" rename_topic) db0).2 !! k
     = topics db0 !! k)
  ∧ (is_Some (topics (serve String.leb "n" (PUT_topic "t2" rename_topic) db0).2 !! "t2")
     ↔ is_Some (topics db0 !! "t2")).
Proof.
  refine (proj1 (put_touches_one_row String.leb "n" "t2" rename_topic db0
            (serve String.leb "n" (PUT_topic "t2" rename_topic) db0).1
            (serve String.leb "n" (PUT_topic "t2" rename_topic) db0).2) _).
  vm_compute. reflexivity.
Defined.

Lemma delete_skill_cases_witness :
  serve String.leb "n" (DELETE_skill "s9") db0 = (error 404 "Skill not found", db0)
  ∧ serve String.leb "n" (DELETE_skill "s1") db0
    = (mkresp 204 NoContent, mkdb (topics db0) (delete "s1" (skills db0))).
Proof.
  split.
  - refine (proj1 (delete_skill_cases String.leb "n" "n" "s9" db0) _). reflexivity.
  - refine (proj1 (proj2 (delete_skill_cases String.leb "n" "n" "s1" db0) _)).
    vm_compute. eauto.
Defined.

Lemma delete_skill_unblocks_topic_witness :
  ∃ st1, serve String.leb "n" (DELETE_skill "s1") db_single = (mkresp 204 NoContent, st1)
         ∧ serve String.leb "n" (DELETE_topic "t1") st1
           = (mkresp 204 NoContent,
              mkdb (delete "t1" (topics db_single)) (delete "s1" (skills db_single))).
Proof.
  apply (delete_skill_unblocks_topic String.leb "n" "n" "s1" "t1" db_single).
  - vm_compute. eauto.
  - vm_compute. eauto.
  - intros sid' skill Hl _. unfold db_single in Hl. cbn [skills] in Hl.
    apply lookup_insert_Some in Hl as [[<- _]|[_ Hl]]; [done|].
    by rewrite lookup_empty in Hl.
  - apply has_topics_false. vm_compute. reflexivity.
Defined.

Lemma create_skill_blocks_topic_delete_witness :
  ∃ row, (serve String.leb "s2" (POST_skills graph_skill) db0).1
         = mkresp 201 (SkillJson "s2" row)
         ∧ Skill.topic_id row = "t2"
         ∧ serve String.leb "n" (DELETE_topic "t2")
             (serve String.leb "s2" (POST_skills graph_skill) db0).2
           = (error 409 "The topic has dependent skills, cannot delete the topic",
              (serve String.leb "s2" (POST_skills graph_skill) db0).2).
Proof.
  apply (create_skill_blocks_topic_delete String.leb "s2" "n" graph_skill
           (list_to_map [("name", JStr "BFS"); ("topicID", JStr "t2")]) "t2" db0).
  - reflexivity.
  - reflexivity.
  - vm_compute. reflexivity.
  - reflexivity.
Defined.

Lemma self_parent_blocks_delete_witness :
  ∃ row st', serve String.leb "n" (PUT_topic "t2" self_parent) db0
             = (mkresp 200 (TopicJson "t2" row), st')
    ∧ Topic.parent_topic_id row = Some "t2"
    ∧ ∃ msg, serve String.leb "n" (DELETE_topic "t2") st' = (error 409 msg, st').
Proof.
  apply (self_parent_blocks_delete String.leb "n" "n" "t2" self_parent
           (list_to_map [("parentTopicID", JStr "t2")]) graphs db0).
  - reflexivity.
  - reflexivity.
  - exact I.
  - exact I.
  - reflexivity.
Defined.

Lemma body_not_a_dict_witness :
  serve String.leb "n" (POST_topics (Some (JArr [JNum 1]))) db0
  = (mkresp 500 (Unhandled AttributeError), db0)
  ∧ serve String.leb "n" (PUT_topic "t9" (Some (JArr [JNum 1]))) db0
    = (error 404 "Topic not found", db0).
Proof.
  assert (Hv : not_a_dict (JArr [JNum 1])). { split; [reflexivity|discriminate]. }
  split.
  - exact (proj1 (body_not_a_dict String.leb "n" (JArr [JNum 1]) "t9" db0 Hv)).
  - exact (proj1 (proj2 (proj2 (body_not_a_dict String.leb "n" (JArr [JNum 1]) "t9" db0 Hv)))).
Defined.

Lemma other_table_untouched_witness :
  skills (serve String.leb "n" (DELETE_topic "t2") db0).2 = skills db0.
Proof.
  apply (other_table_untouched String.leb "n" (DELETE_topic "t2") db0
           (serve String.leb "n" (DELETE_topic "t2") db0).1).
  vm_compute. reflexivity.
Defined.

Lemma refs_ok_preserved_witness :
  refs_ok (serve String.leb "t3" (POST_topics tree_topic) db0).2.
Proof.
  apply (refs_ok_preserved String.leb "t3" (POST_topics tree_topic) db0
           (serve String.leb "t3" (POST_topics tree_topic) db0).1).
  - intros p Hp. vm_compute in Hp. injection Hp as <-.
    vm_compute. right. eexists. reflexivity.
  - vm_compute. reflexivity.
  - exact refs_ok_db0.
Defined.

Lemma trimmed_preserved_witness :
  trimmed (serve String.leb "t3" (POST_topics tree_topic) db0).2.
Proof.
  apply (trimmed_preserved String.leb "t3" (POST_topics tree_topic) db0
           (serve String.leb "t3" (POST_topics tree_topic) db0).1).
  - vm_compute. reflexivity.
  - exact trimmed_db0.
Defined.

Lemma empty_put_changes_nothing_witness :
  serve String.leb "n" (PUT_topic "t2" None) db0 = (mkresp 200 (TopicJson "t2" graphs), db0)
  ∧ serve String.leb "n" (PUT_skill "s1" None) db0
    = (mkresp 200 (SkillJson "s1" sorting_skill), db0).
Proof.
  destruct (empty_put_changes_nothing String.leb "n" "t2" None db0
              eq_refl refs_ok_db0 trimmed_db0) as [HT _].
  destruct (empty_put_changes_nothing String.leb "n" "s1" None db0
              eq_refl refs_ok_db0 trimmed_db0) as [_ HS].
  split; [apply HT|apply HS]; reflexivity.
Defined.
